(** * TinyLink backend: short-code allocation and resolution

    A shallow embedding of the TinyLink backend (Express handlers over a
    PostgreSQL table) and the properties of its short-code engine.

    Sources embedded here:
    - [validators.js]: [isValidCode], [isValidUrl], [isValidEmail];
    - [migrations/schema.sql]: the [links] table and its constraints;
    - [routes/links.js]: the [/api/links] handlers;
    - [index.js]: the redirect handler [GET /:code].

    Modelling conventions.
    - A JavaScript string is the sequence of its code units, each an
      [ascii]; code units above 255 are outside the model.
    - A handler issues its SQL statements one at a time; every statement
      is one atomic step on the table, and the steps of concurrent
      requests interleave.  A handler run in isolation takes its steps
      back to back.
    - [now()] and [Math.random()] are inputs of the step that evaluates
      them.
    - The store refuses a text parameter that holds a NUL character, a
      counter beyond INTEGER and a sequence value beyond INTEGER, besides
      the constraint violations declared by the schema.  A lost connection
      is outside the model. *)

From Stdlib Require Import String Ascii List ZArith Lia Bool Arith.
From Stdlib Require Import Permutation Sorted.
Import ListNotations.

Local Open Scope string_scope.

(* ================================================================= *)
(** ** JavaScript strings *)

Module JsString.

(** [s.slice(from, to)] for [0 <= from <= to]: the code units at the
    positions [from .. to-1] that exist. *)
Fixpoint drop (n : nat) (s : string) : string :=
  match n, s with
  | O, _ => s
  | S _, EmptyString => EmptyString
  | S n', String _ s' => drop n' s'
  end.

Fixpoint take (n : nat) (s : string) : string :=
  match n, s with
  | O, _ => EmptyString
  | S _, EmptyString => EmptyString
  | S n', String a s' => String a (take n' s')
  end.

Definition slice (from to : nat) (s : string) : string :=
  take (to - from) (drop from s).

(** Truthiness of a value that is either absent ([undefined]) or a
    string: only a non-empty string is truthy. *)
Definition truthy (v : option string) : bool :=
  match v with
  | Some (String _ _) => true
  | _ => false
  end.

Definition chars (s : string) : list ascii := list_ascii_of_string s.

End JsString.

(* ================================================================= *)
(** ** Regular expressions

    The two patterns of [validators.js] are anchored at both ends and use
    no flag, so [RegExp.prototype.test] decides membership of the whole
    input in the language of the pattern.  Membership is computed with
    derivatives. *)

Module Regex.

Inductive regex : Type :=
| Void : regex
| Eps : regex
| Class (p : ascii -> bool) : regex
| Cat (r1 r2 : regex) : regex
| Alt (r1 r2 : regex) : regex
| Star (r : regex) : regex.

(** Quantifiers: [r+] and [r{lo,lo+extra}]. *)
Definition Plus (r : regex) : regex := Cat r (Star r).

Fixpoint upto (extra : nat) (r : regex) : regex :=
  match extra with
  | O => Eps
  | S n => Alt (Cat r (upto n r)) Eps
  end.

Fixpoint between (lo extra : nat) (r : regex) : regex :=
  match lo with
  | O => upto extra r
  | S n => Cat r (between n extra r)
  end.

Fixpoint nullable (r : regex) : bool :=
  match r with
  | Void => false
  | Eps => true
  | Class _ => false
  | Cat r1 r2 => nullable r1 && nullable r2
  | Alt r1 r2 => nullable r1 || nullable r2
  | Star _ => true
  end.

Fixpoint deriv (a : ascii) (r : regex) : regex :=
  match r with
  | Void => Void
  | Eps => Void
  | Class p => if p a then Eps else Void
  | Cat r1 r2 =>
      if nullable r1
      then Alt (Cat (deriv a r1) r2) (deriv a r2)
      else Cat (deriv a r1) r2
  | Alt r1 r2 => Alt (deriv a r1) (deriv a r2)
  | Star r1 => Cat (deriv a r1) (Star r1)
  end.

(** [/^r$/.test(s)] *)
Fixpoint test (r : regex) (s : string) : bool :=
  match s with
  | EmptyString => nullable r
  | String a s' => test (deriv a r) s'
  end.

(** The language of a pattern, for reasoning. *)
Inductive lang : regex -> string -> Prop :=
| L_eps : lang Eps ""
| L_class p a : p a = true -> lang (Class p) (String a "")
| L_cat r1 r2 s1 s2 : lang r1 s1 -> lang r2 s2 -> lang (Cat r1 r2) (s1 ++ s2)
| L_alt_l r1 r2 s : lang r1 s -> lang (Alt r1 r2) s
| L_alt_r r1 r2 s : lang r2 s -> lang (Alt r1 r2) s
| L_star_nil r : lang (Star r) ""
| L_star_cons r s1 s2 :
    lang r s1 -> lang (Star r) s2 -> lang (Star r) (s1 ++ s2).

(** Character classes. *)
Definition in_range (lo hi a : ascii) : bool :=
  Nat.leb (nat_of_ascii lo) (nat_of_ascii a)
  && Nat.leb (nat_of_ascii a) (nat_of_ascii hi).

Definition is_char (c a : ascii) : bool := Ascii.eqb c a.

(** [\s] restricted to code units below 256: TAB, LF, VT, FF, CR, SPACE
    and NO-BREAK SPACE. *)
Definition is_space (a : ascii) : bool :=
  let n := nat_of_ascii a in
  (Nat.leb 9 n && Nat.leb n 13) || Nat.eqb n 32 || Nat.eqb n 160.

End Regex.

(* ================================================================= *)
(** ** validators.js *)

Module Validators.
Import Regex.

(** [[A-Za-z0-9]] *)
Definition alnum (a : ascii) : bool :=
  in_range "A"%char "Z"%char a || in_range "a"%char "z"%char a
  || in_range "0"%char "9"%char a.

(** [/^[A-Za-z0-9]{6,8}$/] *)
Definition code_pattern : regex := between 6 2 (Class alnum).

Definition isValidCode (code : string) : bool := test code_pattern code.

(** [[^\s@]] *)
Definition not_space_at (a : ascii) : bool :=
  negb (is_space a || is_char "@"%char a).

(** [/^[^\s@]+@[^\s@]+\.[^\s@]+$/] *)
Definition email_pattern : regex :=
  Cat (Plus (Class not_space_at))
    (Cat (Class (is_char "@"%char))
       (Cat (Plus (Class not_space_at))
          (Cat (Class (is_char "."%char))
             (Plus (Class not_space_at))))).

Definition isValidEmail (email : string) : bool := test email_pattern email.

Section Url.
(** The platform's URL parser: [URL_protocol u] is [Some p] when
    [new URL(u)] succeeds with [protocol] equal to [p], and [None] when
    the constructor throws. *)
Variable URL_protocol : string -> option string.

Definition isValidUrl (u : string) : bool :=
  match URL_protocol u with
  | Some protocol => String.eqb protocol "http:" || String.eqb protocol "https:"
  | None => false
  end.
End Url.

End Validators.

(* ================================================================= *)
(** ** migrations/schema.sql: the [links] table *)

Module Store.
Import Regex.

Local Open Scope Z_scope.

(** A row of [links].  [last_clicked] is nullable; [created_at] is
    filled by its default [now()] in the only INSERT of the program. *)
Record Link : Type := mkLink {
  id : Z;
  code : string;
  target_url : string;
  email : string;
  total_clicks : Z;
  last_clicked : option Z;
  created_at : Z
}.

(** The table (rows in insertion order) and the next value of the
    sequence behind [id SERIAL]. *)
Record Db : Type := mkDb {
  links : list Link;
  links_id_seq : Z
}.

Definition empty : Db := {| links := []; links_id_seq := 1 |}.

(** Largest value of an [INTEGER] column. *)
Definition INTEGER_MAX : Z := 2147483647.

Inductive SqlError : Type :=
| unique_violation
| check_violation
| string_data_right_truncation
| numeric_value_out_of_range
| character_not_in_repertoire
| sequence_generator_limit_exceeded.

(** [err.code] as the driver reports it. *)
Definition sqlstate (e : SqlError) : string :=
  match e with
  | unique_violation => "23505"
  | check_violation => "23514"
  | string_data_right_truncation => "22001"
  | numeric_value_out_of_range => "22003"
  | character_not_in_repertoire => "22021"
  | sequence_generator_limit_exceeded => "2200H"
  end.

(** A text value cannot hold the character NUL. *)
Definition has_nul (s : string) : bool :=
  existsb (Ascii.eqb zero) (JsString.chars s).

(** [db.query(text, params)]: the parameters are checked before the
    statement runs; a parameter with a NUL is refused and the statement
    has no effect. *)
Definition refused (params : list string) : option SqlError :=
  if existsb has_nul params then Some character_not_in_repertoire else None.

(** [code VARCHAR(8)]: a longer value is refused unless the excess is
    all spaces, which is cut off. *)
Definition all_spaces (s : string) : bool :=
  forallb (Ascii.eqb " "%char) (JsString.chars s).

Definition varchar8 (s : string) : option string :=
  if Nat.leb (String.length s) 8 then Some s
  else if all_spaces (JsString.drop 8 s) then Some (JsString.take 8 s)
  else None.

(** [CONSTRAINT code_format CHECK (code ~ '^[A-Za-z0-9]{6,8}$')] *)
Definition code_format (c : string) : bool :=
  test (between 6 2 (Class Validators.alnum)) c.

Definition has_code (c : string) (l : Link) : bool := String.eqb (code l) c.

(** [code ... UNIQUE] *)
Definition code_taken (c : string) (db : Db) : bool :=
  existsb (has_code c) (links db).

(** [INSERT INTO links (code, target_url, email) VALUES ($1, $2, $3)
    RETURNING ...].  A refused parameter or a code too long for the column
    stops the statement before the sequence is asked; the sequence behind
    [id SERIAL] fails once its values are beyond INTEGER; a value it has
    given is consumed whether or not the row is stored. *)
Definition insert_link (c url em : string) (now : Z) (db : Db)
  : (Link + SqlError) * Db :=
  match refused [c; url; em] with
  | Some err => (inr err, db)
  | None =>
      match varchar8 c with
      | None => (inr string_data_right_truncation, db)
      | Some c' =>
          let new_id := links_id_seq db in
          if INTEGER_MAX <? new_id
          then (inr sequence_generator_limit_exceeded, db)
          else
            let burnt := {| links := links db;
                            links_id_seq := new_id + 1 |} in
            if negb (code_format c') then (inr check_violation, burnt)
            else if code_taken c' db then (inr unique_violation, burnt)
            else
              let row := {| id := new_id; code := c'; target_url := url;
                            email := em; total_clicks := 0;
                            last_clicked := None; created_at := now |} in
              (inl row, {| links := links db ++ [row];
                           links_id_seq := new_id + 1 |})
      end
  end.

(** [ORDER BY created_at DESC]; rows with equal keys keep their table
    order, one of the orders the engine may return. *)
Fixpoint insert_desc (l : Link) (rows : list Link) : list Link :=
  match rows with
  | [] => [l]
  | r :: rows' =>
      if created_at r <? created_at l then l :: r :: rows'
      else r :: insert_desc l rows'
  end.

Fixpoint order_by_created_at_desc (rows : list Link) : list Link :=
  match rows with
  | [] => []
  | r :: rows' => insert_desc r (order_by_created_at_desc rows')
  end.

(** [SELECT ... FROM links ORDER BY created_at DESC] *)
Definition select_all (db : Db) : list Link :=
  order_by_created_at_desc (links db).

(** [SELECT ... FROM links WHERE email = $1 ORDER BY created_at DESC] *)
Definition select_by_email (em : string) (db : Db) : list Link :=
  order_by_created_at_desc
    (filter (fun l => String.eqb (email l) em) (links db)).

(** [SELECT ... FROM links WHERE code=$1] *)
Definition select_by_code (c : string) (db : Db) : list Link :=
  filter (has_code c) (links db).

(** [DELETE FROM links WHERE code=$1]: the row count and the new table. *)
Definition delete_by_code (c : string) (db : Db) : nat * Db :=
  (List.length (filter (has_code c) (links db)),
   {| links := filter (fun l => negb (has_code c l)) (links db);
      links_id_seq := links_id_seq db |}).

Definition click (now : Z) (l : Link) : Link :=
  {| id := id l; code := code l; target_url := target_url l;
     email := email l; total_clicks := total_clicks l + 1;
     last_clicked := Some now; created_at := created_at l |}.

(** [UPDATE links SET total_clicks = total_clicks + 1, last_clicked =
    now() WHERE code=$1].  The statement fails as a whole, changing
    nothing, when a new counter leaves the range of [INTEGER]. *)
Definition update_clicks (c : string) (now : Z) (db : Db)
  : option SqlError * Db :=
  if existsb (fun l => has_code c l && (INTEGER_MAX <? total_clicks l + 1))
       (links db)
  then (Some numeric_value_out_of_range, db)
  else (None,
        {| links := map (fun l => if has_code c l then click now l else l)
                      (links db);
           links_id_seq := links_id_seq db |}).

End Store.

(* ================================================================= *)
(** ** What the handlers send *)

Module Http.
Import Store.

Local Unset Elimination Schemes.
Inductive Json : Type :=
| JNull
| JNum (n : Z)
| JStr (s : string)
| JDate (t : Z)
| JArr (items : list Json)
| JObj (fields : list (string * Json)).
Local Set Elimination Schemes.

Inductive Response : Type :=
| SendJson (status : Z) (body : Json)        (* res.status(n).json(body) *)
| SendText (status : Z) (body : string)      (* res.status(n).send(text) *)
| SendEmpty (status : Z)                     (* res.status(n).send() *)
| RedirectTo (status : Z) (location : string)  (* res.redirect(n, url) *)
| NoResponse (err : SqlError).               (* the handler's promise rejects *)

(** The columns of [links], and the items of a select list: a column
    with an optional [AS] alias. *)
Inductive Column : Type :=
| c_id | c_code | c_target_url | c_email
| c_total_clicks | c_last_clicked | c_created_at.

Definition column_name (c : Column) : string :=
  match c with
  | c_id => "id"
  | c_code => "code"
  | c_target_url => "target_url"
  | c_email => "email"
  | c_total_clicks => "total_clicks"
  | c_last_clicked => "last_clicked"
  | c_created_at => "created_at"
  end.

Definition column_value (c : Column) (l : Link) : Json :=
  match c with
  | c_id => JNum (id l)
  | c_code => JStr (code l)
  | c_target_url => JStr (target_url l)
  | c_email => JStr (email l)
  | c_total_clicks => JNum (total_clicks l)
  | c_last_clicked =>
      match last_clicked l with Some t => JDate t | None => JNull end
  | c_created_at => JDate (created_at l)
  end.

Definition output_name (item : Column * option string) : string :=
  match snd item with
  | Some alias => alias
  | None => column_name (fst item)
  end.

Definition project (items : list (Column * option string)) (l : Link)
  : list (string * Json) :=
  map (fun item => (output_name item, column_value (fst item) l)) items.

(** [id, code, target_url AS url, email, total_clicks, last_clicked,
    created_at]: the select list of the three SELECTs of [routes/links.js]
    and of the RETURNING clause. *)
Definition link_columns : list (Column * option string) :=
  [ (c_id, None); (c_code, None); (c_target_url, Some "url");
    (c_email, None); (c_total_clicks, None); (c_last_clicked, None);
    (c_created_at, None) ].

Definition row_json (l : Link) : Json := JObj (project link_columns l).

(** [Object.keys] of a JSON object. *)
Definition field_names (j : Json) : list string :=
  match j with
  | JObj fields => map fst fields
  | _ => []
  end.

Definition error_body (message : string) : Json :=
  JObj [("error", JStr message)].

(** U+2013 EN DASH, as the bytes of its UTF-8 form. *)
Definition en_dash : string :=
  String (ascii_of_nat 226) (String (ascii_of_nat 128)
    (String (ascii_of_nat 147) "")).

Definition custom_code_message : string :=
  "Custom code must be 6" ++ en_dash ++ "8 alphanumeric characters".

End Http.

(* ================================================================= *)
(** ** routes/links.js and index.js: the handlers *)

Module Handlers.
Import JsString Store Http.

Local Open Scope Z_scope.

(** [req.body] of [POST /api/links]: [{ url, code?, email }]. *)
Record Body : Type := mkBody {
  url : string;
  custom_code : option string;
  owner : string
}.

Inductive Request : Type :=
| ListLinks (email : option string)   (* GET /api/links?email=... *)
| CreateLink (body : Body)            (* POST /api/links *)
| LinkDetails (code : string)         (* GET /api/links/:code *)
| DeleteLink (code : string)          (* DELETE /api/links/:code *)
| Redirect (code : string).           (* GET /:code *)

(** What a step reads from outside the table: the value of [now()] and
    the string [Math.random().toString(36)]. *)
Record Env : Type := mkEnv {
  now : Z;
  random36 : string
}.

(** [Math.random().toString(36).slice(2, 10)] *)
Definition generate (e : Env) : string := slice 2 10 (random36 e).

(** A request in flight: not started, between the two statements of the
    redirect handler, or answered. *)
Inductive Run : Type :=
| Pending (r : Request)
| Selected (code target : string)
| Done (resp : Response).

Section Platform.
Variable URL_protocol : string -> option string.

(** [GET /api/links] *)
Definition list_links (em : option string) (db : Db) : Response :=
  match em with
  | Some (String _ _ as e) =>                    (* if (email) *)
      match refused [e] with
      | Some _ => SendJson 500 (error_body "internal error")
      | None => SendJson 200 (JArr (map row_json (select_by_email e db)))
      end
  | _ => SendJson 200 (JArr (map row_json (select_all db)))
  end.

(** The [try] block of [POST /api/links] and its [catch]. *)
Definition try_insert (finalCode : string) (b : Body) (e : Env) (db : Db)
  : Response * Db :=
  match insert_link finalCode (url b) (owner b) (now e) db with
  | (inl row, db') => (SendJson 201 (row_json row), db')
  | (inr err, db') =>
      if String.eqb (sqlstate err) "23505"
      then (SendJson 409 (error_body "Custom code already in use"), db')
      else (SendJson 500 (error_body "internal error"), db')
  end.

(** [POST /api/links] *)
Definition create_link (b : Body) (e : Env) (db : Db) : Response * Db :=
  if negb (Validators.isValidUrl URL_protocol (url b)) then
    (SendJson 400 (error_body "Invalid URL"), db)
  else if negb (Validators.isValidEmail (owner b)) then
    (SendJson 400 (error_body "Invalid email"), db)
  else
    match custom_code b with
    | Some (String _ _ as finalCode) =>      (* if (finalCode) *)
        if negb (Validators.isValidCode finalCode) then
          (SendJson 400 (error_body custom_code_message), db)
        else try_insert finalCode b e db
    | _ => try_insert (generate e) b e db
    end.

(** [GET /api/links/:code] *)
Definition link_details (c : string) (db : Db) : Response :=
  match refused [c] with
  | Some _ => SendJson 500 (error_body "internal error")
  | None =>
      match select_by_code c db with
      | [] => SendJson 404 (error_body "not found")
      | row :: _ => SendJson 200 (row_json row)
      end
  end.

(** [DELETE /api/links/:code] *)
Definition delete_link (c : string) (db : Db) : Response * Db :=
  match refused [c] with
  | Some _ => (SendJson 500 (error_body "internal error"), db)
  | None =>
      let '(rowCount, db') := delete_by_code c db in
      if Nat.eqb rowCount 0
      then (SendJson 404 (error_body "not found"), db')
      else (SendEmpty 204, db')
  end.

(** [GET /:code], first statement: [SELECT target_url FROM links WHERE
    code=$1].  The handler has no [try]: when the statement is refused
    its promise rejects. *)
Definition redirect_select (c : string) (db : Db) : Run :=
  match refused [c] with
  | Some err => Done (NoResponse err)
  | None =>
      match select_by_code c db with
      | [] => Done (SendText 404 "Not found")
      | row :: _ => Selected c (target_url row)
      end
  end.

(** [GET /:code], second statement: the UPDATE, then the redirect. *)
Definition redirect_update (c target : string) (e : Env) (db : Db)
  : Response * Db :=
  match refused [c] with
  | Some err => (NoResponse err, db)
  | None =>
      match update_clicks c (now e) db with
      | (Some err, db') => (NoResponse err, db')
      | (None, db') => (RedirectTo 302 target, db')
      end
  end.

(** One statement of one request. *)
Definition step (e : Env) (r : Run) (db : Db) : Run * Db :=
  match r with
  | Pending (ListLinks em) => (Done (list_links em db), db)
  | Pending (CreateLink b) =>
      let '(resp, db') := create_link b e db in (Done resp, db')
  | Pending (LinkDetails c) => (Done (link_details c db), db)
  | Pending (DeleteLink c) =>
      let '(resp, db') := delete_link c db in (Done resp, db')
  | Pending (Redirect c) => (redirect_select c db, db)
  | Selected c target =>
      let '(resp, db') := redirect_update c target e db in (Done resp, db')
  | Done resp => (Done resp, db)
  end.

(** A request served with no other request in between: its statements
    back to back (a handler issues at most two; a step on an answered
    request does nothing). *)
Definition handle (e : Env) (r : Request) (db : Db) : Run * Db :=
  let '(r1, db1) := step e (Pending r) db in step e r1 db1.

(** Concurrent requests: each event of a schedule lets the request
    at one position run its next statement. *)
Fixpoint step_at (i : nat) (e : Env) (runs : list Run) (db : Db)
  : list Run * Db :=
  match runs, i with
  | [], _ => ([], db)
  | r :: rest, O => let '(r', db') := step e r db in (r' :: rest, db')
  | r :: rest, S j =>
      let '(rest', db') := step_at j e rest db in (r :: rest', db')
  end.

Fixpoint exec (schedule : list (nat * Env)) (runs : list Run) (db : Db)
  : list Run * Db :=
  match schedule with
  | [] => (runs, db)
  | (i, e) :: schedule' =>
      let '(runs', db') := step_at i e runs db in exec schedule' runs' db'
  end.

End Platform.

End Handlers.

(* ================================================================= *)
(** ** Vocabulary of the properties *)

Module Props.
Import JsString Store Http Handlers.

Local Open Scope Z_scope.

(** Every code unit of [s] is in the class [p]. *)
Definition all_in (p : ascii -> bool) (s : string) : Prop :=
  Forall (fun a => p a = true) (chars s).

(** An ASCII letter or digit, by code. *)
Definition ascii_letter_or_digit (a : ascii) : Prop :=
  let n := nat_of_ascii a in
  (65 <= n <= 90)%nat \/ (97 <= n <= 122)%nat \/ (48 <= n <= 57)%nat.

(** 6 to 8 characters, each an ASCII letter or digit. *)
Definition well_formed_code (c : string) : Prop :=
  (6 <= String.length c <= 8)%nat /\ Forall ascii_letter_or_digit (chars c).

(** The number of code units of [s] equal to [ch]. *)
Definition occurrences (ch : ascii) (s : string) : nat :=
  List.length (filter (Ascii.eqb ch) (chars s)).

(** A digit of a base-36 print: [0-9a-z]. *)
Definition base36_digit (a : ascii) : bool :=
  Regex.in_range "0"%char "9"%char a || Regex.in_range "a"%char "z"%char a.

(** Newest first. *)
Definition newest_first (rows : list Link) : Prop :=
  StronglySorted (fun a b => created_at b <= created_at a) rows.

(** The tables the program can produce: from the empty table, any
    statement of any request, in any order. *)
Inductive reachable (URL_protocol : string -> option string) : Db -> Prop :=
| reach_empty : reachable URL_protocol Store.empty
| reach_step e r db :
    reachable URL_protocol db ->
    reachable URL_protocol (snd (step URL_protocol e r db)).

(** Rows are identified by their primary key, which the sequence has
    already passed. *)
Definition ids_ok (db : Db) : Prop :=
  NoDup (map id (links db))
  /\ Forall (fun l => id l < links_id_seq db) (links db).

Definition counter_ok (l : Link) : Prop :=
  0 <= total_clicks l /\ (last_clicked l = None <-> total_clicks l = 0).

(** From [db] to [db']: every row of [db'] continues a row of [db] with
    a counter at least as large, or was created since. *)
Definition continues (l l' : Link) : Prop :=
  id l' = id l /\ code l' = code l /\ target_url l' = target_url l
  /\ email l' = email l /\ created_at l' = created_at l
  /\ total_clicks l <= total_clicks l'.

Definition extends (db db' : Db) : Prop :=
  links_id_seq db <= links_id_seq db'
  /\ Forall (fun l' => (exists l, In l (links db) /\ continues l l')
                       \/ links_id_seq db <= id l') (links db').

(** What one statement does to the table: nothing, a refused INSERT, a
    stored row, a DELETE or the UPDATE of the redirect. *)
Inductive effect (db : Db) : Db -> Prop :=
| eff_none : effect db db
| eff_refused :
    effect db {| links := links db; links_id_seq := links_id_seq db + 1 |}
| eff_stored row :
    id row = links_id_seq db -> total_clicks row = 0 ->
    last_clicked row = None ->
    effect db {| links := links db ++ [row];
                 links_id_seq := links_id_seq db + 1 |}
| eff_deleted c :
    effect db {| links := filter (fun l => negb (has_code c l)) (links db);
                 links_id_seq := links_id_seq db |}
| eff_clicked c t :
    effect db {| links := map (fun l => if has_code c l then click t l
                                        else l) (links db);
                 links_id_seq := links_id_seq db |}.

(** A request for [GET /:code] whose destination is [target], at any
    point of its life. *)
Definition redirecting (c target : string) (r : Run) : Prop :=
  r = Pending (Redirect c) \/ r = Selected c target
  \/ r = Done (RedirectTo 302 target).

Definition is_done (r : Run) : bool :=
  match r with Done _ => true | _ => false end.

Definition count_done (runs : list Run) : nat :=
  List.length (filter is_done runs).

(** How far a request has come: statements sent, 2 once it is answered;
    a position with no request counts as answered. *)
Definition progress (r : Run) : nat :=
  match r with
  | Pending _ => 0
  | Selected _ _ => 1
  | Done _ => 2
  end.

Definition progress_at (j : nat) (runs : list Run) : nat :=
  match nth_error runs j with
  | Some r => progress r
  | None => 2
  end.

(** The number of events a schedule gives to position [j]. *)
Definition turns (j : nat) (sched : list (nat * Env)) : nat :=
  List.length (filter (fun ev => Nat.eqb (fst ev) j) sched).

End Props.

(* ================================================================= *)
(** ** Sample data *)

Module Sample.
Import Store Http Handlers.

Local Open Scope Z_scope.

(** A stand-in for the URL parser that agrees with it on the URLs used
    below. *)
Definition URL_protocol (u : string) : option string :=
  if String.prefix "https://" u then Some "https:"
  else if String.prefix "http://" u then Some "http:"
  else if String.prefix "ftp://" u then Some "ftp:"
  else None.

Definition row1 : Link :=
  {| id := 1; code := "abc123"; target_url := "https://example.com";
     email := "a@b.com"; total_clicks := 0; last_clicked := None;
     created_at := 1000 |}.

Definition db1 : Db := {| links := [row1]; links_id_seq := 2 |}.

Definition row2 : Link :=
  {| id := 1; code := "4fzyo82m"; target_url := "https://example.org";
     email := "c@d.org"; total_clicks := 0; last_clicked := None;
     created_at := 500 |}.

Definition db2 : Db := {| links := [row2]; links_id_seq := 2 |}.

Definition row3 : Link :=
  {| id := 2; code := "xyz789"; target_url := "http://example.net/a";
     email := "c@d.org"; total_clicks := 3; last_clicked := Some 1800;
     created_at := 1500 |}.

Definition db3 : Db := {| links := [row1; row3]; links_id_seq := 3 |}.

Definition row_full : Link :=
  {| id := 1; code := "abc123"; target_url := "https://example.com";
     email := "a@b.com"; total_clicks := 2147483647;
     last_clicked := Some 4000; created_at := 1000 |}.

Definition db_full : Db := {| links := [row_full]; links_id_seq := 2 |}.

Definition body_plain : Body :=
  {| url := "https://example.com"; custom_code := None;
     owner := "a@b.com" |}.

Definition body_with (c : string) : Body :=
  {| url := "https://example.com"; custom_code := Some c;
     owner := "a@b.com" |}.

Definition env (t : Z) (r : string) : Env := {| now := t; random36 := r |}.

End Sample.

(* ================================================================= *)
(** * Properties *)

(** ** Matching by derivatives decides the language of the pattern *)

Module RegexFacts.
Import Regex Props.

Lemma lang_eps_inv s : lang Eps s -> s = "".
Proof. intros H; inversion H; reflexivity. Qed.

Lemma lang_class_inv p s :
  lang (Class p) s -> exists a, s = String a "" /\ p a = true.
Proof. intros H; inversion H; subst; eauto. Qed.

Lemma lang_cat_inv r1 r2 s :
  lang (Cat r1 r2) s ->
  exists s1 s2, s = s1 ++ s2 /\ lang r1 s1 /\ lang r2 s2.
Proof. intros H; inversion H; subst; eauto. Qed.

Lemma lang_alt_inv r1 r2 s : lang (Alt r1 r2) s -> lang r1 s \/ lang r2 s.
Proof. intros H; inversion H; subst; auto. Qed.

(** A non-empty word of [r*] starts with a non-empty word of [r]. *)
Lemma lang_star_cons_inv r a s :
  lang (Star r) (String a s) ->
  exists s1 s2, s = s1 ++ s2 /\ lang r (String a s1) /\ lang (Star r) s2.
Proof.
  intros H.
  remember (Star r) as r' eqn:Er.
  remember (String a s) as w eqn:Ew.
  revert a s Ew.
  induction H as [ | | | | | | r0 s1 s2 H1 _ H2 IH2]; intros c t Ew;
    try discriminate.
  injection Er as ->.
  destruct s1 as [|b s1'].
  - simpl in Ew. apply (IH2 eq_refl); assumption.
  - simpl in Ew. injection Ew as <- <-. exists s1', s2. auto.
Qed.

Lemma nullable_lang r : nullable r = true <-> lang r "".
Proof.
  induction r as [ | | p | r1 IH1 r2 IH2 | r1 IH1 r2 IH2 | r IH]; simpl.
  - split; [discriminate | intros H; inversion H].
  - split; [constructor | reflexivity].
  - split; [discriminate | intros H; inversion H].
  - rewrite andb_true_iff, IH1, IH2. split.
    + intros [H1 H2]. exact (L_cat _ _ "" "" H1 H2).
    + intros H. apply lang_cat_inv in H as (s1 & s2 & E & H1 & H2).
      destruct s1; [|discriminate]. destruct s2; [|discriminate]. auto.
  - rewrite orb_true_iff, IH1, IH2. split.
    + intros [H|H]; [apply L_alt_l | apply L_alt_r]; exact H.
    + apply lang_alt_inv.
  - split; [constructor | reflexivity].
Qed.

Lemma deriv_lang r : forall a s, lang (deriv a r) s <-> lang r (String a s).
Proof.
  induction r as [ | | p | r1 IH1 r2 IH2 | r1 IH1 r2 IH2 | r IH];
    intros a s; simpl.
  - split; intros H; inversion H.
  - split; intros H; inversion H.
  - destruct (p a) eqn:Ep; split; intros H.
    + apply lang_eps_inv in H as ->. now constructor.
    + apply lang_class_inv in H as (b & E & _). injection E as _ ->.
      constructor.
    + inversion H.
    + apply lang_class_inv in H as (b & E & Hb). injection E as -> _.
      congruence.
  - assert (Hcat : lang (Cat (deriv a r1) r2) s ->
                   lang (Cat r1 r2) (String a s)).
    { intros H. apply lang_cat_inv in H as (s1 & s2 & -> & H1 & H2).
      apply IH1 in H1. exact (L_cat _ _ (String a s1) s2 H1 H2). }
    assert (Hsplit : lang (Cat r1 r2) (String a s) ->
                     lang (Cat (deriv a r1) r2) s
                     \/ (lang r1 "" /\ lang (deriv a r2) s)).
    { intros H. apply lang_cat_inv in H as (s1 & s2 & E & H1 & H2).
      destruct s1 as [|b s1'].
      - simpl in E. subst s2. right. split; [exact H1 | now apply IH2].
      - simpl in E. injection E as -> ->. left.
        apply L_cat; [now apply IH1 | exact H2]. }
    destruct (nullable r1) eqn:En; split; intros H.
    + apply lang_alt_inv in H as [H|H]; [now apply Hcat|].
      apply IH2 in H. apply nullable_lang in En.
      exact (L_cat _ _ "" _ En H).
    + apply Hsplit in H as [H|[_ H]]; [now apply L_alt_l | now apply L_alt_r].
    + now apply Hcat.
    + apply Hsplit in H as [H|[H _]]; [exact H|].
      apply nullable_lang in H. congruence.
  - split; intros H.
    + apply lang_alt_inv in H as [H|H];
        [apply L_alt_l; now apply IH1 | apply L_alt_r; now apply IH2].
    + apply lang_alt_inv in H as [H|H];
        [apply L_alt_l; now apply IH1 | apply L_alt_r; now apply IH2].
  - split; intros H.
    + apply lang_cat_inv in H as (s1 & s2 & -> & H1 & H2).
      apply IH in H1. exact (L_star_cons _ (String a s1) s2 H1 H2).
    + apply lang_star_cons_inv in H as (s1 & s2 & -> & H1 & H2).
      apply L_cat; [now apply IH | exact H2].
Qed.

Lemma test_lang s : forall r, test r s = true <-> lang r s.
Proof.
  induction s as [|a s IH]; intros r; simpl.
  - apply nullable_lang.
  - rewrite IH. apply deriv_lang.
Qed.

(** The words of [[p]{lo,lo+extra}]. *)
Lemma upto_lang p n : forall s,
  lang (upto n (Class p)) s <-> (String.length s <= n)%nat /\ all_in p s.
Proof.
  unfold all_in.
  induction n as [|n IH]; intros s; simpl.
  - split.
    + intros H. apply lang_eps_inv in H as ->. simpl. split; [lia|constructor].
    + intros [H _]. destruct s; simpl in H; [constructor | lia].
  - split.
    + intros H. apply lang_alt_inv in H as [H|H].
      * apply lang_cat_inv in H as (s1 & s2 & -> & H1 & H2).
        apply lang_class_inv in H1 as (a & -> & Ha).
        apply IH in H2 as [Hl Hall]. simpl. split; [lia|].
        constructor; assumption.
      * apply lang_eps_inv in H as ->. simpl. split; [lia|constructor].
    + intros [Hl Hall]. destruct s as [|a s].
      * apply L_alt_r. constructor.
      * simpl in Hl, Hall. inversion Hall; subst. apply L_alt_l.
        apply (L_cat _ _ (String a "") s); [now constructor|].
        apply IH. split; [lia | assumption].
Qed.

Lemma between_lang p lo extra : forall s,
  lang (between lo extra (Class p)) s <->
  (lo <= String.length s <= lo + extra)%nat /\ all_in p s.
Proof.
  induction lo as [|lo IH]; intros s; simpl.
  - rewrite upto_lang. intuition lia.
  - split.
    + intros H. apply lang_cat_inv in H as (s1 & s2 & -> & H1 & H2).
      apply lang_class_inv in H1 as (a & -> & Ha).
      apply IH in H2 as [Hl Hall]. simpl. split; [lia|].
      constructor; assumption.
    + intros [Hl Hall]. destruct s as [|a s]; simpl in Hl; [lia|].
      unfold all_in in Hall. simpl in Hall. inversion Hall; subst.
      apply (L_cat _ _ (String a "") s); [now constructor|].
      apply IH. split; [lia | assumption].
Qed.

End RegexFacts.

Import JsString Regex Validators Store Http Handlers Props.

(** ** The code validator *)

Lemma alnum_spec a : alnum a = true <-> ascii_letter_or_digit a.
Proof.
  unfold alnum, in_range, ascii_letter_or_digit.
  rewrite !orb_true_iff, !andb_true_iff, !Nat.leb_le.
  change (nat_of_ascii "A") with 65%nat. change (nat_of_ascii "Z") with 90%nat.
  change (nat_of_ascii "a") with 97%nat. change (nat_of_ascii "z") with 122%nat.
  change (nat_of_ascii "0") with 48%nat. change (nat_of_ascii "9") with 57%nat.
  tauto.
Qed.

Lemma isValidCode_iff c : isValidCode c = true <-> well_formed_code c.
Proof.
  unfold isValidCode, code_pattern, well_formed_code.
  rewrite RegexFacts.test_lang, RegexFacts.between_lang.
  unfold all_in. rewrite !Forall_forall.
  split; intros [Hl Hall]; (split; [lia|]); intros a Ha;
    apply alnum_spec; auto.
Qed.

(** C4. [isValidCode c] is true exactly when [c] is 6 to 8 characters long
    and every character is an ASCII letter or digit, and false for every
    other string: the empty string, a string that is too long, a string with
    a hyphen, an underscore, a space or a character outside ASCII. *)
Theorem isValidCode_spec :
  (forall c, isValidCode c = true <-> well_formed_code c)
  /\ (forall c, isValidCode c = false <-> ~ well_formed_code c)
  /\ isValidCode "" = false
  /\ isValidCode "abcdefghi" = false
  /\ isValidCode "abc-123" = false
  /\ isValidCode "abc_123" = false
  /\ isValidCode "abc 123" = false
  /\ isValidCode (String (ascii_of_nat 233) "abc123") = false.
Proof.
  split; [exact isValidCode_iff|].
  split; [|repeat split; reflexivity].
  intros c. rewrite <- isValidCode_iff.
  destruct (isValidCode c); split; congruence.
Qed.

(** The validator at work on an accepted and on a refused code. *)
Lemma isValidCode_spec_witness :
  isValidCode "abc123" = true /\ ~ well_formed_code "ab-123".
Proof.
  split.
  - apply (proj1 isValidCode_spec). apply isValidCode_iff. reflexivity.
  - apply (proj1 (proj2 isValidCode_spec)). reflexivity.
Defined.

(** ** The table *)

Lemma select_by_code_free c db :
  code_taken c db = false -> select_by_code c db = [].
Proof.
  unfold code_taken, select_by_code.
  induction (links db) as [|l rows IH]; simpl; [reflexivity|].
  intros H. apply orb_false_iff in H as [Hl Hrows].
  rewrite Hl. auto.
Qed.

Lemma code_taken_app c rows row seq seq' :
  code_taken c {| links := rows ++ [row]; links_id_seq := seq' |}
  = code_taken c {| links := rows; links_id_seq := seq |} || has_code c row.
Proof.
  unfold code_taken. simpl. rewrite existsb_app. simpl.
  now rewrite orb_false_r.
Qed.

Lemma varchar8_short s : (String.length s <= 8)%nat -> varchar8 s = Some s.
Proof.
  intros H. unfold varchar8. apply Nat.leb_le in H. now rewrite H.
Qed.

Lemma varchar8_valid c : isValidCode c = true -> varchar8 c = Some c.
Proof.
  intros H. apply isValidCode_iff in H as [Hl _]. apply varchar8_short. lia.
Qed.

Lemma refused_one c :
  refused [c]
  = if has_nul c then Some character_not_in_repertoire else None.
Proof. unfold refused. simpl. now rewrite orb_false_r. Qed.

Lemma refused_none_one c : has_nul c = false -> refused [c] = None.
Proof. intros H. now rewrite refused_one, H. Qed.

Lemma refused_none_three c u m :
  has_nul c = false -> has_nul u = false -> has_nul m = false ->
  refused [c; u; m] = None.
Proof. intros Hc Hu Hm. unfold refused. simpl. now rewrite Hc, Hu, Hm. Qed.

Lemma refused_three_inv c u m :
  refused [c; u; m] = None ->
  has_nul c = false /\ has_nul u = false /\ has_nul m = false.
Proof.
  unfold refused. simpl.
  destruct (has_nul c), (has_nul u), (has_nul m); simpl;
    try discriminate; auto.
Qed.

(** A code that passes the validator holds no NUL. *)
Lemma has_nul_valid c : isValidCode c = true -> has_nul c = false.
Proof.
  intros H. apply isValidCode_iff in H as [_ Hall].
  unfold has_nul. revert Hall. generalize (chars c) as cs.
  induction 1 as [|a rest Ha _ IH]; [reflexivity|].
  cbn [existsb]. rewrite IH, orb_false_r.
  apply Ascii.eqb_neq. intros <-.
  unfold ascii_letter_or_digit in Ha.
  change (nat_of_ascii zero) with 0%nat in Ha. cbv zeta in Ha. lia.
Qed.

(** What a stored row looks like, and what a refused INSERT leaves. *)
Lemma insert_link_stored c u m t db row db' :
  insert_link c u m t db = (inl row, db') ->
  exists c',
    varchar8 c = Some c' /\ code_format c' = true
    /\ code_taken c' db = false
    /\ row = {| id := links_id_seq db; code := c'; target_url := u;
                email := m; total_clicks := 0; last_clicked := None;
                created_at := t |}
    /\ db' = {| links := links db ++ [row];
                links_id_seq := (links_id_seq db + 1)%Z |}
    /\ has_nul m = false
    /\ (links_id_seq db <= INTEGER_MAX)%Z.
Proof.
  unfold insert_link.
  destruct (refused [c; u; m]) as [err|] eqn:Er; [discriminate|].
  apply refused_three_inv in Er as (_ & _ & Hm).
  destruct (varchar8 c) as [c'|] eqn:Ev; [|discriminate].
  destruct (INTEGER_MAX <? links_id_seq db)%Z eqn:Es; [discriminate|].
  apply Z.ltb_ge in Es.
  destruct (code_format c') eqn:Ef; simpl; [|discriminate].
  destruct (code_taken c' db) eqn:Et; [discriminate|].
  intros H. injection H as <- <-. exists c'. repeat split; auto.
Qed.

Lemma insert_link_refused c u m t db err db' :
  insert_link c u m t db = (inr err, db') ->
  db' = db
  \/ db' = {| links := links db; links_id_seq := (links_id_seq db + 1)%Z |}.
Proof.
  unfold insert_link.
  destruct (refused [c; u; m]);
    [intros H; injection H as _ <-; auto|].
  destruct (varchar8 c) as [c'|];
    [|intros H; injection H as _ <-; auto].
  destruct (INTEGER_MAX <? links_id_seq db)%Z;
    [intros H; injection H as _ <-; auto|].
  destruct (negb (code_format c'));
    [intros H; injection H as _ <-; auto|].
  destruct (code_taken c' db); [|discriminate].
  intros H; injection H as _ <-; auto.
Qed.

(** Only an INSERT that reached the table is refused as a duplicate. *)
Lemma insert_link_duplicate c u m t db db' :
  insert_link c u m t db = (inr unique_violation, db') ->
  db' = {| links := links db; links_id_seq := (links_id_seq db + 1)%Z |}.
Proof.
  unfold insert_link.
  destruct (refused [c; u; m]) as [err|] eqn:Er.
  { unfold refused in Er. destruct (existsb has_nul [c; u; m]);
      [injection Er as <-|]; discriminate. }
  destruct (varchar8 c) as [c'|]; [|discriminate].
  destruct (INTEGER_MAX <? links_id_seq db)%Z; [discriminate|].
  destruct (negb (code_format c')); [discriminate|].
  destruct (code_taken c' db); [|discriminate].
  intros H; injection H as <-; reflexivity.
Qed.

Lemma insert_link_taken c u m t db :
  has_nul u = false -> has_nul m = false ->
  (links_id_seq db <= INTEGER_MAX)%Z ->
  isValidCode c = true -> code_taken c db = true ->
  insert_link c u m t db
  = (inr unique_violation,
     {| links := links db; links_id_seq := (links_id_seq db + 1)%Z |}).
Proof.
  intros Hu Hm Hs Hv Ht. unfold insert_link.
  rewrite (refused_none_three _ _ _ (has_nul_valid _ Hv) Hu Hm).
  rewrite (varchar8_valid _ Hv).
  apply Z.ltb_ge in Hs. rewrite Hs.
  unfold code_format. fold code_pattern.
  change (test code_pattern c) with (isValidCode c).
  now rewrite Hv, Ht.
Qed.

(** ** POST /api/links *)

Section Creation.
Variable URL_protocol : string -> option string.

Lemma handle_create e b db :
  handle URL_protocol e (CreateLink b) db
  = (Done (fst (create_link URL_protocol b e db)),
     snd (create_link URL_protocol b e db)).
Proof.
  unfold Handlers.handle. simpl.
  destruct (Handlers.create_link URL_protocol b e db) as [resp db'].
  reflexivity.
Qed.

Lemma try_insert_taken c b e db :
  has_nul (url b) = false -> has_nul (owner b) = false ->
  (links_id_seq db <= INTEGER_MAX)%Z ->
  isValidCode c = true -> code_taken c db = true ->
  try_insert c b e db
  = (SendJson 409 (error_body "Custom code already in use"),
     {| links := links db; links_id_seq := (links_id_seq db + 1)%Z |}).
Proof.
  intros Hu Hm Hs Hv Ht. unfold try_insert.
  now rewrite (insert_link_taken _ _ _ _ _ Hu Hm Hs Hv Ht).
Qed.

(** A 201 answer carries the row that was appended to the table. *)
Lemma try_insert_created c b e db body db' :
  try_insert c b e db = (SendJson 201 body, db') ->
  exists row, insert_link c (url b) (owner b) (now e) db = (inl row, db')
              /\ body = row_json row.
Proof.
  unfold try_insert.
  destruct (insert_link c (url b) (owner b) (now e) db) as [[row|err] db1].
  - intros H. injection H as <- <-. eauto.
  - destruct (String.eqb (sqlstate err) "23505"); discriminate.
Qed.

Lemma create_link_created b e db body db' :
  create_link URL_protocol b e db = (SendJson 201 body, db') ->
  exists c row,
    insert_link c (url b) (owner b) (now e) db = (inl row, db')
    /\ body = row_json row
    /\ (forall c0, custom_code b = Some c0 -> c0 <> "" ->
                   c = c0 /\ isValidCode c0 = true).
Proof.
  unfold Handlers.create_link.
  destruct (negb (isValidUrl URL_protocol (url b))); [discriminate|].
  destruct (negb (isValidEmail (owner b))); [discriminate|].
  destruct (custom_code b) as [[|a s]|].
  - intros H. apply try_insert_created in H as (row & Hi & ->).
    exists (generate e), row. repeat split; auto; congruence.
  - destruct (isValidCode (String a s)) eqn:Ev; simpl; [|discriminate].
    intros H. apply try_insert_created in H as (row & Hi & ->).
    exists (String a s), row. split; [exact Hi|]. split; [reflexivity|].
    intros c0 E _. injection E as <-. auto.
  - intros H. apply try_insert_created in H as (row & Hi & ->).
    exists (generate e), row. repeat split; auto; discriminate.
Qed.

Lemma create_link_explicit_taken b e db c :
  custom_code b = Some c ->
  isValidUrl URL_protocol (url b) = true ->
  isValidEmail (owner b) = true ->
  has_nul (url b) = false -> has_nul (owner b) = false ->
  (links_id_seq db <= INTEGER_MAX)%Z ->
  isValidCode c = true ->
  code_taken c db = true ->
  create_link URL_protocol b e db
  = (SendJson 409 (error_body "Custom code already in use"),
     {| links := links db; links_id_seq := (links_id_seq db + 1)%Z |}).
Proof.
  intros Hc Hu Hm Hnu Hnm Hs Hv Ht. unfold Handlers.create_link.
  rewrite Hu, Hm, Hc. simpl.
  destruct c as [|a s]; [discriminate Hv|].
  rewrite Hv. simpl.
  now apply try_insert_taken.
Qed.

End Creation.

(** C6, as stated, fails: the validators accept an e-mail address (and a
    URL) that holds a NUL character, the store refuses such a parameter
    before the INSERT runs, and the request, which names the well-formed
    code ["abc123"] that a row carries, is answered 500 and not 409. *)
Lemma taken_code_with_nul_email :
  isValidEmail (String "a" (String zero "@b.com")) = true
  /\ isValidCode "abc123" = true
  /\ code_taken "abc123" Sample.db1 = true
  /\ handle Sample.URL_protocol (Sample.env 2000 "0.4fzyo82mvyr")
       (CreateLink {| url := "https://example.com";
                      custom_code := Some "abc123";
                      owner := String "a" (String zero "@b.com") |})
       Sample.db1
     = (Done (SendJson 500 (error_body "internal error")), Sample.db1).
Proof. repeat split. Qed.

(** C6, amended. A request that names a well-formed code already in the
    table, with a URL and an e-mail address that pass the validators and
    hold no NUL character, while the sequence of ids has a value left, is
    answered 409 "Custom code already in use" after one INSERT (the
    sequence moves by one), and the table keeps the rows it had: no other
    code is tried.  In particular, after a creation with an explicit code
    has succeeded, a second such creation with the same code is answered
    409 and leaves the first row as it was. *)
Theorem explicit_code_conflict (URL_protocol : string -> option string) :
  (forall e b c db,
      custom_code b = Some c ->
      isValidUrl URL_protocol (url b) = true ->
      isValidEmail (owner b) = true ->
      has_nul (url b) = false -> has_nul (owner b) = false ->
      (links_id_seq db <= INTEGER_MAX)%Z ->
      isValidCode c = true ->
      code_taken c db = true ->
      handle URL_protocol e (CreateLink b) db
      = (Done (SendJson 409 (error_body "Custom code already in use")),
         {| links := links db; links_id_seq := (links_id_seq db + 1)%Z |}))
  /\ (forall e1 e2 b1 b2 c db body db1,
         custom_code b1 = Some c -> c <> "" ->
         handle URL_protocol e1 (CreateLink b1) db
         = (Done (SendJson 201 body), db1) ->
         custom_code b2 = Some c ->
         isValidUrl URL_protocol (url b2) = true ->
         isValidEmail (owner b2) = true ->
         has_nul (url b2) = false -> has_nul (owner b2) = false ->
         (links_id_seq db1 <= INTEGER_MAX)%Z ->
         exists row,
           body = row_json row /\ code row = c /\ In row (links db1)
           /\ handle URL_protocol e2 (CreateLink b2) db1
              = (Done (SendJson 409 (error_body "Custom code already in use")),
                 {| links := links db1;
                    links_id_seq := (links_id_seq db1 + 1)%Z |})).
Proof.
  split.
  - intros e b c db Hc Hu Hm Hnu Hnm Hs Hv Ht.
    rewrite handle_create.
    rewrite (create_link_explicit_taken _ _ _ _ _ Hc Hu Hm Hnu Hnm Hs Hv Ht).
    reflexivity.
  - intros e1 e2 b1 b2 c db body db1 Hc1 Hne H1 Hc2 Hu Hm Hnu Hnm Hs.
    rewrite handle_create in H1.
    destruct (create_link URL_protocol b1 e1 db) as [resp dbx] eqn:Ec.
    simpl in H1. injection H1 as -> ->.
    apply create_link_created in Ec as (c' & row & Hi & -> & Hexp).
    destruct (Hexp c Hc1 Hne) as [-> Hv].
    apply insert_link_stored in Hi as (c'' & Hv8 & _ & _ & Hrow & -> & _).
    rewrite (varchar8_valid _ Hv) in Hv8. injection Hv8 as <-.
    assert (Ht : code_taken c
                   {| links := links db ++ [row];
                      links_id_seq := (links_id_seq db + 1)%Z |} = true).
    { rewrite (code_taken_app _ _ _ (links_id_seq db)).
      apply orb_true_iff. right. unfold has_code. rewrite Hrow. simpl.
      apply String.eqb_refl. }
    exists row. split; [reflexivity|].
    split; [rewrite Hrow; reflexivity|].
    split; [simpl; apply in_or_app; right; left; reflexivity|].
    rewrite handle_create.
    rewrite (create_link_explicit_taken _ _ _ _ _ Hc2 Hu Hm Hnu Hnm Hs Hv Ht).
    reflexivity.
Qed.

(** The scenario of C6 on the sample table, and from the empty table. *)
Lemma explicit_code_conflict_witness :
  handle Sample.URL_protocol (Sample.env 2000 "0.4fzyo82mvyr")
    (CreateLink (Sample.body_with "abc123")) Sample.db1
  = (Done (SendJson 409 (error_body "Custom code already in use")),
     {| links := links Sample.db1;
        links_id_seq := (links_id_seq Sample.db1 + 1)%Z |})
  /\ (exists row,
         row_json Sample.row1 = row_json row /\ code row = "abc123"
         /\ In row (links Sample.db1)
         /\ handle Sample.URL_protocol (Sample.env 2000 "0.4fzyo82mvyr")
              (CreateLink (Sample.body_with "abc123")) Sample.db1
            = (Done (SendJson 409 (error_body "Custom code already in use")),
               {| links := links Sample.db1;
                  links_id_seq := (links_id_seq Sample.db1 + 1)%Z |})).
Proof.
  split.
  - apply (proj1 (explicit_code_conflict Sample.URL_protocol)
             (Sample.env 2000 "0.4fzyo82mvyr") (Sample.body_with "abc123")
             "abc123" Sample.db1); try reflexivity.
    unfold INTEGER_MAX. simpl. lia.
  - apply (proj2 (explicit_code_conflict Sample.URL_protocol)
             (Sample.env 1000 "0.4fzyo82mvyr")
             (Sample.env 2000 "0.4fzyo82mvyr")
             (Sample.body_with "abc123") (Sample.body_with "abc123")
             "abc123" Store.empty (row_json Sample.row1) Sample.db1);
      try reflexivity.
    + discriminate.
    + unfold INTEGER_MAX. simpl. lia.
Defined.

(** ** GET /:code on a code that is not in the table *)

(** C8, as stated, fails: for the code made of one NUL character, which
    no row carries, the store refuses the parameter of the SELECT and the
    handler, which has no [try], sends no 404. *)
Lemma resolve_nul_code_unanswered :
  code_taken (String zero "") Sample.db1 = false
  /\ handle Sample.URL_protocol (Sample.env 2000 "0.4fzyo82mvyr")
       (Redirect (String zero "")) Sample.db1
     = (Done (NoResponse character_not_in_repertoire), Sample.db1).
Proof. split; reflexivity. Qed.

(** C8, amended. Resolving a code that holds no NUL character and that no
    row carries is answered 404 "Not found" after the SELECT alone, and
    the table, rows and sequence, is the one the request found.  Whatever
    the code, a resolution of a code that no row carries leaves the table
    as it was. *)
Theorem resolve_unknown_code (URL_protocol : string -> option string) :
  forall e c db,
    code_taken c db = false ->
    (has_nul c = false ->
     step URL_protocol e (Pending (Redirect c)) db
     = (Done (SendText 404 "Not found"), db)
     /\ handle URL_protocol e (Redirect c) db
        = (Done (SendText 404 "Not found"), db))
    /\ snd (handle URL_protocol e (Redirect c) db) = db.
Proof.
  intros e c db H.
  unfold handle. simpl. unfold redirect_select.
  rewrite (select_by_code_free _ _ H), refused_one.
  destruct (has_nul c); split; try discriminate; try reflexivity.
  intros _. split; reflexivity.
Qed.

Lemma resolve_unknown_code_witness :
  code_taken "zzzzzz" Sample.db1 = false
  /\ handle Sample.URL_protocol (Sample.env 2000 "0.4fzyo82mvyr")
       (Redirect "zzzzzz") Sample.db1
     = (Done (SendText 404 "Not found"), Sample.db1).
Proof.
  split; [reflexivity|].
  apply (proj1 (resolve_unknown_code Sample.URL_protocol
                  (Sample.env 2000 "0.4fzyo82mvyr") "zzzzzz" Sample.db1
                  eq_refl) eq_refl).
Defined.

(** ** Malformed custom codes *)

(** C5, as stated, fails on the empty string: [if (finalCode)] takes an
    empty code for an absent one, a code is generated and a row is
    stored. *)
Lemma empty_custom_code_is_generated :
  isValidCode "" = false
  /\ handle Sample.URL_protocol (Sample.env 1000 "0.4fzyo82mvyr")
       (CreateLink (Sample.body_with "")) Store.empty
     = (Done (SendJson 201
                (row_json {| id := 1; code := "4fzyo82m";
                             target_url := "https://example.com";
                             email := "a@b.com"; total_clicks := 0;
                             last_clicked := None; created_at := 1000 |})),
        {| links := [ {| id := 1; code := "4fzyo82m";
                         target_url := "https://example.com";
                         email := "a@b.com"; total_clicks := 0;
                         last_clicked := None; created_at := 1000 |} ];
           links_id_seq := 2 |})
  /\ ~ (forall e b c db,
           custom_code b = Some c -> isValidCode c = false ->
           exists message,
             handle Sample.URL_protocol e (CreateLink b) db
             = (Done (SendJson 400 (error_body message)), db)).
Proof.
  split; [reflexivity|]. split; [reflexivity|].
  intros H.
  destruct (H (Sample.env 1000 "0.4fzyo82mvyr") (Sample.body_with "") ""
              Store.empty eq_refl eq_refl) as [message Hm].
  discriminate Hm.
Qed.

(** C5, amended. A request that names a non-empty malformed code is
    answered 400 and no statement is sent to the table; when the URL and
    the e-mail address are valid the answer is the one about the custom
    code. *)
Theorem malformed_code_rejected (URL_protocol : string -> option string) :
  forall e b c db,
    custom_code b = Some c -> c <> "" -> isValidCode c = false ->
    (exists message,
        handle URL_protocol e (CreateLink b) db
        = (Done (SendJson 400 (error_body message)), db))
    /\ (isValidUrl URL_protocol (url b) = true ->
        isValidEmail (owner b) = true ->
        handle URL_protocol e (CreateLink b) db
        = (Done (SendJson 400 (error_body custom_code_message)), db)).
Proof.
  intros e b c db Hc Hne Hv.
  rewrite handle_create. unfold create_link. rewrite Hc.
  destruct c as [|a s]; [congruence|]. rewrite Hv.
  destruct (isValidUrl URL_protocol (url b)); simpl;
    [destruct (isValidEmail (owner b)); simpl|].
  - split; [eexists|intros _ _]; reflexivity.
  - split; [eexists; reflexivity | discriminate].
  - split; [eexists; reflexivity | discriminate].
Qed.

Lemma malformed_code_rejected_witness :
  isValidCode "ab-123" = false
  /\ handle Sample.URL_protocol (Sample.env 1000 "0.4fzyo82mvyr")
       (CreateLink (Sample.body_with "ab-123")) Sample.db1
     = (Done (SendJson 400 (error_body custom_code_message)), Sample.db1).
Proof.
  split; [reflexivity|].
  apply (proj2 (malformed_code_rejected Sample.URL_protocol
                  (Sample.env 1000 "0.4fzyo82mvyr")
                  (Sample.body_with "ab-123") "ab-123" Sample.db1
                  eq_refl ltac:(discriminate) eq_refl));
    reflexivity.
Defined.

(** ** Generated codes *)

(** C2, as stated, fails: the generated candidate ["4fzyo82m"] is taken,
    another draw would have given a free one, and the request is answered
    409 after a single INSERT (the sequence moved by one). *)
Lemma generated_duplicate_not_retried :
  custom_code Sample.body_plain = None
  /\ generate (Sample.env 1000 "0.4fzyo82mvyr") = "4fzyo82m"
  /\ code_taken "4fzyo82m" Sample.db2 = true
  /\ code_taken (generate (Sample.env 1000 "0.k3x9q0a7bcd")) Sample.db2 = false
  /\ handle Sample.URL_protocol (Sample.env 1000 "0.4fzyo82mvyr")
       (CreateLink Sample.body_plain) Sample.db2
     = (Done (SendJson 409 (error_body "Custom code already in use")),
        {| links := links Sample.db2; links_id_seq := 3 |}).
Proof. repeat split. Qed.

(** C2, amended. With no custom code (absent or empty), when the INSERT
    of the generated candidate is refused as a duplicate, the request is
    answered 409 "Custom code already in use"; the table keeps its rows and
    exactly one INSERT was sent. *)
Theorem generated_code_conflict (URL_protocol : string -> option string) :
  forall e b db db',
    truthy (custom_code b) = false ->
    isValidUrl URL_protocol (url b) = true ->
    isValidEmail (owner b) = true ->
    insert_link (generate e) (url b) (owner b) (now e) db
    = (inr unique_violation, db') ->
    handle URL_protocol e (CreateLink b) db
    = (Done (SendJson 409 (error_body "Custom code already in use")), db')
    /\ links db' = links db
    /\ links_id_seq db' = (links_id_seq db + 1)%Z.
Proof.
  intros e b db db' Hc Hu Hm Hi.
  rewrite handle_create. unfold create_link. rewrite Hu, Hm. simpl.
  assert (Ht : try_insert (generate e) b e db
               = (SendJson 409 (error_body "Custom code already in use"), db')).
  { unfold try_insert. rewrite Hi. reflexivity. }
  apply insert_link_duplicate in Hi.
  destruct (custom_code b) as [[|a s]|]; try discriminate Hc;
    rewrite Ht; subst db'; repeat split.
Qed.

Lemma generated_code_conflict_witness :
  handle Sample.URL_protocol (Sample.env 1000 "0.4fzyo82mvyr")
    (CreateLink Sample.body_plain) Sample.db2
  = (Done (SendJson 409 (error_body "Custom code already in use")),
     {| links := links Sample.db2; links_id_seq := 3 |})
  /\ links {| links := links Sample.db2; links_id_seq := 3 |}
     = links Sample.db2
  /\ links_id_seq {| links := links Sample.db2; links_id_seq := 3 |}
     = (links_id_seq Sample.db2 + 1)%Z.
Proof.
  apply (generated_code_conflict Sample.URL_protocol
           (Sample.env 1000 "0.4fzyo82mvyr") Sample.body_plain Sample.db2);
    reflexivity.
Defined.

(** C3. The generator keeps what [toString(36)] printed after ["0."], up
    to 8 characters.  When [Math.random()] returns 0.5 the print is ["0.i"]
    and the candidate is ["i"], which the validator refuses; the INSERT
    fails the [code_format] check and the request is answered 500.  When it
    returns 0 the print is ["0"] and the candidate is empty. *)
Theorem generated_code_too_short :
  generate (Sample.env 1000 "0.i") = "i"
  /\ isValidCode "i" = false
  /\ handle Sample.URL_protocol (Sample.env 1000 "0.i")
       (CreateLink Sample.body_plain) Store.empty
     = (Done (SendJson 500 (error_body "internal error")),
        {| links := []; links_id_seq := 2 |})
  /\ generate (Sample.env 1000 "0") = ""
  /\ isValidCode "" = false.
Proof. repeat split. Qed.

(** ** Field names of the answers *)

Lemma field_names_row l :
  field_names (row_json l)
  = ["id"; "code"; "url"; "email"; "total_clicks"; "last_clicked";
     "created_at"].
Proof. reflexivity. Qed.

(** C9, as stated, fails: the record in the answer to a creation has the
    key [id] and the column names [total_clicks], [last_clicked] and
    [created_at]. *)
Lemma creation_answer_fields :
  exists body db',
    handle Sample.URL_protocol (Sample.env 1000 "0.4fzyo82mvyr")
      (CreateLink (Sample.body_with "abc123")) Store.empty
    = (Done (SendJson 201 body), db')
    /\ field_names body
       = ["id"; "code"; "url"; "email"; "total_clicks"; "last_clicked";
          "created_at"]
    /\ field_names body
       <> ["code"; "url"; "email"; "totalClicks"; "lastClicked"; "createdAt"].
Proof.
  eexists. eexists. split; [reflexivity|]. split; [reflexivity|discriminate].
Qed.

(** C9, amended. Every record in the answer to a creation (201), in a
    listing (200) and in the details of a link (200) has exactly the keys
    [id], [code], [url], [email], [total_clicks], [last_clicked] and
    [created_at], in this order. *)
Theorem answer_field_names (URL_protocol : string -> option string) :
  forall e db,
    (forall b body db',
        handle URL_protocol e (CreateLink b) db
        = (Done (SendJson 201 body), db') ->
        field_names body
        = ["id"; "code"; "url"; "email"; "total_clicks"; "last_clicked";
           "created_at"])
    /\ (forall em items db',
           handle URL_protocol e (ListLinks em) db
           = (Done (SendJson 200 (JArr items)), db') ->
           Forall (fun record =>
                     field_names record
                     = ["id"; "code"; "url"; "email"; "total_clicks";
                        "last_clicked"; "created_at"]) items)
    /\ (forall c body db',
           handle URL_protocol e (LinkDetails c) db
           = (Done (SendJson 200 body), db') ->
           field_names body
           = ["id"; "code"; "url"; "email"; "total_clicks"; "last_clicked";
              "created_at"]).
Proof.
  intros e db. repeat split.
  - intros b body db' H. rewrite handle_create in H.
    destruct (create_link URL_protocol b e db) as [resp dbx] eqn:Ec.
    simpl in H. injection H as -> ->.
    apply create_link_created in Ec as (c & row & _ & -> & _).
    apply field_names_row.
  - intros em items db' H. unfold handle in H. simpl in H.
    assert (Hrows : exists rows, items = map row_json rows).
    { unfold list_links in H.
      destruct em as [[|a m]|];
        [| destruct (refused [String a m]); [discriminate|] |];
        injection H as <- _; eauto. }
    destruct Hrows as [rows ->].
    apply Forall_forall. intros record Hin.
    apply in_map_iff in Hin as (row & <- & _). apply field_names_row.
  - intros c body db' H. unfold handle in H. simpl in H.
    unfold link_details in H.
    destruct (refused [c]); [discriminate|].
    destruct (select_by_code c db) as [|row rows]; [discriminate|].
    injection H as <- _. apply field_names_row.
Qed.

Lemma answer_field_names_witness :
  field_names (row_json Sample.row1)
  = ["id"; "code"; "url"; "email"; "total_clicks"; "last_clicked";
     "created_at"].
Proof.
  apply (proj2 (proj2 (answer_field_names Sample.URL_protocol
                         (Sample.env 2000 "0.4fzyo82mvyr") Sample.db1))
           "abc123" (row_json Sample.row1) Sample.db1).
  reflexivity.
Defined.

(** ** GET /api/links *)

Lemma insert_desc_perm l rows : Permutation (insert_desc l rows) (l :: rows).
Proof.
  induction rows as [|r rows IH]; simpl; [reflexivity|].
  destruct (created_at r <? created_at l)%Z; [reflexivity|].
  rewrite IH. apply perm_swap.
Qed.

Lemma order_by_perm rows : Permutation (order_by_created_at_desc rows) rows.
Proof.
  induction rows as [|r rows IH]; simpl; [reflexivity|].
  rewrite insert_desc_perm. now constructor.
Qed.

Lemma insert_desc_sorted l rows :
  newest_first rows -> newest_first (insert_desc l rows).
Proof.
  unfold newest_first.
  induction rows as [|r rows IH]; simpl; intros Hs.
  - repeat constructor.
  - apply StronglySorted_inv in Hs as [Hs Hr].
    destruct (created_at r <? created_at l)%Z eqn:Elt.
    + apply Z.ltb_lt in Elt. constructor; [constructor; assumption|].
      constructor; [lia|].
      eapply Forall_impl; [|exact Hr]. simpl. intros x Hx. lia.
    + apply Z.ltb_ge in Elt. constructor; [auto|].
      apply Forall_forall. intros x Hx.
      apply (Permutation_in _ (insert_desc_perm l rows)) in Hx as [<-|Hx];
        [exact Elt|].
      rewrite Forall_forall in Hr. auto.
Qed.

Lemma order_by_sorted rows : newest_first (order_by_created_at_desc rows).
Proof.
  induction rows as [|r rows IH]; simpl.
  - constructor.
  - now apply insert_desc_sorted.
Qed.

(** C10. With no [email] parameter (or an empty one) a listing is
    answered 200 with all the rows of the table, whoever owns them, newest
    first, and leaves the table alone.  The rows are those of one owner
    only when a non-empty [email] is given: then, for an address that
    holds no NUL character, the answer is 200 with the rows of that
    owner, newest first. *)
Theorem list_links_scope (URL_protocol : string -> option string) :
  forall e em db,
    (em = None \/ em = Some "" ->
     exists rows,
       handle URL_protocol e (ListLinks em) db
       = (Done (SendJson 200 (JArr (map row_json rows))), db)
       /\ newest_first rows
       /\ Permutation rows (links db))
    /\ (forall owner_email,
           em = Some owner_email -> owner_email <> "" ->
           has_nul owner_email = false ->
           exists rows,
             handle URL_protocol e (ListLinks em) db
             = (Done (SendJson 200 (JArr (map row_json rows))), db)
             /\ newest_first rows
             /\ Permutation rows
                  (filter (fun l => String.eqb (email l) owner_email)
                     (links db))).
Proof.
  intros e em db. unfold handle. simpl. unfold list_links. split.
  - intros Hem. exists (select_all db).
    split; [destruct Hem as [-> | ->]; reflexivity|].
    split; [apply order_by_sorted | apply order_by_perm].
  - intros m -> Hne Hnul. destruct m as [|a s]; [congruence|].
    rewrite (refused_none_one _ Hnul).
    exists (select_by_email (String a s) db). split; [reflexivity|].
    split; [apply order_by_sorted | apply order_by_perm].
Qed.

(** A listing with no [email] over a table of two owners. *)
Lemma list_links_scope_witness :
  exists rows,
    handle Sample.URL_protocol (Sample.env 2000 "0.4fzyo82mvyr")
      (ListLinks None) Sample.db3
    = (Done (SendJson 200 (JArr (map row_json rows))), Sample.db3)
    /\ newest_first rows
    /\ Permutation rows (links Sample.db3).
Proof.
  apply (proj1 (list_links_scope Sample.URL_protocol
                  (Sample.env 2000 "0.4fzyo82mvyr") None Sample.db3)).
  left. reflexivity.
Defined.

(** ** The click counter *)

Lemma select_by_code_taken c db row rows :
  select_by_code c db = row :: rows -> code_taken c db = true.
Proof.
  unfold select_by_code, code_taken. intros H.
  apply existsb_exists. exists row.
  assert (Hin : In row (filter (has_code c) (links db)))
    by (rewrite H; left; reflexivity).
  apply filter_In in Hin. exact Hin.
Qed.

Section Steps.
Variable URL_protocol : string -> option string.

Lemma create_link_effect b e db :
  effect db (snd (create_link URL_protocol b e db)).
Proof.
  assert (Ht : forall c, effect db (snd (try_insert c b e db))).
  { intros c. unfold try_insert.
    destruct (insert_link c (url b) (owner b) (now e) db)
      as [[row|err] db'] eqn:Ei.
    - apply insert_link_stored in Ei as (c' & _ & _ & _ & Hrow & -> & _).
      simpl. apply eff_stored; rewrite Hrow; reflexivity.
    - apply insert_link_refused in Ei as [-> | ->];
        destruct (String.eqb (sqlstate err) "23505");
        try apply eff_none; apply eff_refused. }
  unfold create_link.
  destruct (negb (isValidUrl URL_protocol (url b))); [apply eff_none|].
  destruct (negb (isValidEmail (owner b))); [apply eff_none|].
  destruct (custom_code b) as [[|a s]|]; try apply Ht.
  destruct (negb (isValidCode (String a s))); [apply eff_none | apply Ht].
Qed.

Lemma step_effect e r db : effect db (snd (step URL_protocol e r db)).
Proof.
  destruct r as [[em|b|c|c|c]|c target|resp]; simpl;
    try apply eff_none.
  - pose proof (create_link_effect b e db) as H.
    destruct (create_link URL_protocol b e db). exact H.
  - unfold delete_link, delete_by_code.
    destruct (refused [c]); [apply eff_none|].
    destruct (Nat.eqb _ 0); apply eff_deleted.
  - unfold redirect_update, update_clicks.
    destruct (refused [c]); [apply eff_none|].
    destruct (existsb _ (links db)); [apply eff_none | apply eff_clicked].
Qed.

Lemma step_at_effect i e : forall runs db,
  effect db (snd (step_at URL_protocol i e runs db)).
Proof.
  induction i as [|i IH]; intros [|r runs] db; simpl;
    try apply eff_none.
  - pose proof (step_effect e r db) as H.
    destruct (step URL_protocol e r db). exact H.
  - pose proof (IH runs db) as H.
    destruct (step_at URL_protocol i e runs db). exact H.
Qed.

End Steps.

Lemma effect_extends db db' : effect db db' -> extends db db'.
Proof.
  assert (Hsame : forall rows, Forall (fun l' =>
            (exists l, In l rows /\ continues l l')
            \/ (links_id_seq db <= id l')%Z) rows).
  { intros rows. apply Forall_forall. intros l Hl. left. exists l.
    split; [exact Hl|]. unfold continues. repeat split; lia. }
  intros [ | | row Hid _ _ | c | c t]; unfold extends; simpl.
  - split; [lia | apply Hsame].
  - split; [lia | apply Hsame].
  - split; [lia|]. apply Forall_app. split; [apply Hsame|].
    constructor; [right; lia | constructor].
  - split; [lia|]. apply Forall_forall. intros l Hl.
    apply filter_In in Hl as [Hl _]. left. exists l.
    split; [exact Hl|]. unfold continues. repeat split; lia.
  - split; [lia|]. apply Forall_forall. intros l' Hl'.
    apply in_map_iff in Hl' as (l & <- & Hl). left. exists l.
    split; [exact Hl|].
    destruct (has_code c l); unfold continues; simpl; repeat split; lia.
Qed.

Lemma extends_refl db : extends db db.
Proof. apply effect_extends. constructor. Qed.

Lemma continues_trans l1 l2 l3 :
  continues l1 l2 -> continues l2 l3 -> continues l1 l3.
Proof. unfold continues. intuition (try congruence; lia). Qed.

Lemma extends_trans db1 db2 db3 :
  extends db1 db2 -> extends db2 db3 -> extends db1 db3.
Proof.
  intros [Hs12 H12] [Hs23 H23]. split; [lia|].
  rewrite Forall_forall in *. intros l3 Hl3.
  destruct (H23 l3 Hl3) as [(l2 & Hl2 & Hc23)|Hnew]; [|right; lia].
  destruct (H12 l2 Hl2) as [(l1 & Hl1 & Hc12)|Hnew].
  - left. exists l1. split; [exact Hl1|]. eapply continues_trans; eauto.
  - right. destruct Hc23 as [-> _]. exact Hnew.
Qed.

Lemma exec_extends URL_protocol sched : forall runs db,
  extends db (snd (exec URL_protocol sched runs db)).
Proof.
  induction sched as [|[i e] sched IH]; intros runs db; simpl.
  - apply extends_refl.
  - pose proof (step_at_effect URL_protocol i e runs db) as H.
    destruct (step_at URL_protocol i e runs db) as [runs1 db1]. simpl in H.
    eapply extends_trans; [apply effect_extends; exact H | apply IH].
Qed.

(** A row keeps its key, and a key is never given twice. *)
Lemma extends_same_id db db' l l' :
  ids_ok db -> extends db db' ->
  In l (links db) -> In l' (links db') -> id l' = id l -> continues l l'.
Proof.
  intros [Hnd Hbelow] [_ Hext] Hl Hl' Hid.
  rewrite Forall_forall in Hext, Hbelow.
  destruct (Hext l' Hl') as [(l0 & Hl0 & Hc)|Hnew].
  - assert (l0 = l) as ->; [|exact Hc].
    destruct Hc as [Hid0 _].
    assert (Hinj : forall rows : list Link, NoDup (map id rows) ->
              forall a b, In a rows -> In b rows -> id a = id b -> a = b).
    { induction rows as [|r rows IH]; simpl; [contradiction|].
      intros Hn a b Ha Hb E. inversion Hn as [|? ? Hnotin Hn']; subst.
      destruct Ha as [<-|Ha], Hb as [<-|Hb]; auto.
      - exfalso. apply Hnotin. rewrite E. now apply in_map.
      - exfalso. apply Hnotin. rewrite <- E. now apply in_map. }
    apply (Hinj _ Hnd); auto. congruence.
  - specialize (Hbelow l Hl). simpl in Hbelow. lia.
Qed.

Lemma effect_ids_ok db db' : effect db db' -> ids_ok db -> ids_ok db'.
Proof.
  intros Heff [Hnd Hbelow]. unfold ids_ok.
  destruct Heff as [ | | row Hid _ _ | c | c t]; simpl.
  - auto.
  - split; [exact Hnd|]. eapply Forall_impl; [|exact Hbelow].
    simpl. intros l Hl. lia.
  - split.
    + rewrite map_app. simpl.
      apply NoDup_app; [exact Hnd | repeat constructor; auto | ].
      intros x Hx [<-|[]]. apply in_map_iff in Hx as (l & E & Hl).
      rewrite Forall_forall in Hbelow. specialize (Hbelow l Hl).
      simpl in Hbelow. lia.
    + apply Forall_app. split.
      * eapply Forall_impl; [|exact Hbelow]. simpl. intros l Hl. lia.
      * constructor; [lia | constructor].
  - split.
    + clear Hbelow. induction (links db) as [|r rows IH]; simpl;
        [constructor|].
      inversion Hnd as [|? ? Hnotin Hn']; subst.
      destruct (negb (has_code c r)); simpl; [|auto].
      constructor; [|auto]. intros Hin. apply Hnotin.
      apply in_map_iff in Hin as (l & E & Hl). apply filter_In in Hl as [Hl _].
      apply in_map_iff. eauto.
    + apply Forall_forall. intros l Hl. apply filter_In in Hl as [Hl _].
      rewrite Forall_forall in Hbelow. auto.
  - split.
    + rewrite map_map.
      erewrite map_ext; [exact Hnd|].
      intros l. simpl. destruct (has_code c l); reflexivity.
    + apply Forall_forall. intros l' Hl'.
      apply in_map_iff in Hl' as (l & <- & Hl).
      rewrite Forall_forall in Hbelow. specialize (Hbelow l Hl).
      destruct (has_code c l); simpl; exact Hbelow.
Qed.

Lemma effect_counters db db' :
  effect db db' ->
  Forall counter_ok (links db) -> Forall counter_ok (links db').
Proof.
  intros Heff Hok.
  destruct Heff as [ | | row _ Hzero Hnone | c | c t]; simpl; auto.
  - apply Forall_app. split; [exact Hok|].
    constructor; [|constructor]. unfold counter_ok.
    rewrite Hzero, Hnone. split; [lia | tauto].
  - apply Forall_forall. intros l Hl. apply filter_In in Hl as [Hl _].
    rewrite Forall_forall in Hok. auto.
  - apply Forall_forall. intros l' Hl'.
    apply in_map_iff in Hl' as (l & <- & Hl).
    rewrite Forall_forall in Hok. specialize (Hok l Hl).
    destruct (has_code c l); [|exact Hok].
    destruct Hok as [Hpos _]. unfold counter_ok. simpl.
    split; [lia|]. split; [discriminate | lia].
Qed.

Lemma reachable_invariant URL_protocol db :
  reachable URL_protocol db -> ids_ok db /\ Forall counter_ok (links db).
Proof.
  induction 1 as [|e r db _ [Hids Hok]].
  - split; [split|]; simpl; constructor.
  - pose proof (step_effect URL_protocol e r db) as Heff.
    split; [eapply effect_ids_ok | eapply effect_counters]; eauto.
Qed.

Lemma update_answered URL_protocol e c target resp db' db :
  step URL_protocol e (Selected c target) db = (Done resp, db') ->
  (exists status location, resp = RedirectTo status location) ->
  resp = RedirectTo 302 target
  /\ db' = {| links := map (fun l => if has_code c l then click (now e) l
                                     else l) (links db);
              links_id_seq := links_id_seq db |}.
Proof.
  simpl. unfold redirect_update, update_clicks.
  destruct (refused [c]);
    [intros H (st & loc & Hr); injection H as <- _; discriminate Hr|].
  destruct (existsb _ (links db));
    [intros H (st & loc & Hr); injection H as <- _; discriminate Hr|].
  intros H _. injection H as <- <-. split; reflexivity.
Qed.

Lemma handle_redirect_found URL_protocol e c db target db' :
  handle URL_protocol e (Redirect c) db = (Done (RedirectTo 302 target), db') ->
  code_taken c db = true
  /\ db' = {| links := map (fun l => if has_code c l then click (now e) l
                                     else l) (links db);
              links_id_seq := links_id_seq db |}.
Proof.
  unfold handle. simpl. unfold redirect_select.
  destruct (refused [c]) eqn:Er; [discriminate|].
  destruct (select_by_code c db) as [|row rows] eqn:Es; simpl;
    [discriminate|].
  unfold redirect_update, update_clicks. rewrite Er.
  destruct (existsb _ (links db)); [discriminate|].
  intros H. injection H as _ <-.
  split; [eapply select_by_code_taken; eauto | reflexivity].
Qed.

Lemma clicked_rows c t rows :
  Forall2 (fun l l' =>
             id l' = id l
             /\ (code l = c ->
                 total_clicks l' = (total_clicks l + 1)%Z
                 /\ last_clicked l' = Some t)
             /\ (code l <> c -> l' = l))
    rows (map (fun l => if has_code c l then click t l else l) rows).
Proof.
  induction rows as [|l rows IH]; simpl; constructor; [|exact IH].
  unfold has_code. destruct (String.eqb (code l) c) eqn:E.
  - apply String.eqb_eq in E. simpl. repeat split; congruence.
  - apply String.eqb_neq in E. repeat split; congruence.
Qed.

(** C7, as stated, fails between the two statements of a redirect.  When
    the code is deleted after the SELECT, the redirect is answered 302 and
    no counter moves.  When the code is deleted and created again after
    the SELECT, the redirect is answered 302 to the old destination and
    the new row, to which no visitor was sent, gets counter 1 and a
    [last_clicked]. *)
Lemma redirect_answered_without_click :
  exec Sample.URL_protocol
    [(0, Sample.env 3000 "0.1"); (1, Sample.env 3001 "0.2");
     (0, Sample.env 3002 "0.3")]%nat
    [Pending (Redirect "xyz789"); Pending (DeleteLink "xyz789")]
    Sample.db3
  = ([Done (RedirectTo 302 "http://example.net/a"); Done (SendEmpty 204)],
     {| links := [Sample.row1]; links_id_seq := 3 |})
  /\ exec Sample.URL_protocol
       [(0, Sample.env 3000 "0.1"); (1, Sample.env 3001 "0.2");
        (2, Sample.env 3002 "0.3"); (0, Sample.env 3003 "0.4")]%nat
       [Pending (Redirect "abc123"); Pending (DeleteLink "abc123");
        Pending (CreateLink {| url := "http://example.net/b";
                               custom_code := Some "abc123";
                               owner := "c@d.org" |})]
       Sample.db1
     = ([Done (RedirectTo 302 "https://example.com"); Done (SendEmpty 204);
         Done (SendJson 201
                 (row_json {| id := 2; code := "abc123";
                              target_url := "http://example.net/b";
                              email := "c@d.org"; total_clicks := 0;
                              last_clicked := None; created_at := 3002 |}))],
        {| links := [ {| id := 2; code := "abc123";
                         target_url := "http://example.net/b";
                         email := "c@d.org"; total_clicks := 1;
                         last_clicked := Some 3003%Z;
                         created_at := 3002 |} ];
           links_id_seq := 3 |}).
Proof. split; reflexivity. Qed.

(** C7, amended. In every table the program can produce, each counter is
    non-negative and [last_clicked] is absent exactly while the counter is
    0.  A created row starts with counter 0 and no [last_clicked].  The
    SELECT of a redirect writes nothing; its UPDATE, whenever it runs and
    is followed by the redirect, adds exactly 1 to the counter of the rows
    that carry the code at that moment and leaves the other rows as they
    were; so a redirect served with no other request between its two
    statements and answered 302 adds exactly 1 to the counter of its code.
    And whatever the requests and however their statements interleave, a
    row that is still in the table has a counter at least as large as
    before: no statement lowers or resets it. *)
Theorem total_clicks_monotone (URL_protocol : string -> option string) :
  forall db,
    reachable URL_protocol db ->
    Forall counter_ok (links db)
    /\ (forall e b body db',
           handle URL_protocol e (CreateLink b) db
           = (Done (SendJson 201 body), db') ->
           exists row,
             body = row_json row /\ links db' = (links db ++ [row])%list
             /\ total_clicks row = 0%Z /\ last_clicked row = None)
    /\ (forall e c, snd (step URL_protocol e (Pending (Redirect c)) db) = db)
    /\ (forall e c target resp db',
           step URL_protocol e (Selected c target) db = (Done resp, db') ->
           (exists status location, resp = RedirectTo status location) ->
           resp = RedirectTo 302 target
           /\ Forall2 (fun l l' =>
                         id l' = id l
                         /\ (code l = c ->
                             total_clicks l' = (total_clicks l + 1)%Z
                             /\ last_clicked l' = Some (now e))
                         /\ (code l <> c -> l' = l))
                (links db) (links db'))
    /\ (forall e c target db',
           handle URL_protocol e (Redirect c) db
           = (Done (RedirectTo 302 target), db') ->
           code_taken c db = true
           /\ Forall2 (fun l l' =>
                         id l' = id l
                         /\ (code l = c ->
                             total_clicks l' = (total_clicks l + 1)%Z
                             /\ last_clicked l' = Some (now e))
                         /\ (code l <> c -> l' = l))
                (links db) (links db'))
    /\ (forall sched runs runs' db',
           exec URL_protocol sched runs db = (runs', db') ->
           forall l l',
             In l (links db) -> In l' (links db') -> id l' = id l ->
             (total_clicks l <= total_clicks l')%Z).
Proof.
  intros db Hreach.
  destruct (reachable_invariant _ _ Hreach) as [Hids Hok].
  split; [exact Hok|]. split; [|split; [|split; [|split]]].
  - intros e b body db' H. rewrite handle_create in H.
    destruct (create_link URL_protocol b e db) as [resp dbx] eqn:Ec.
    simpl in H. injection H as -> ->.
    apply create_link_created in Ec as (c & row & Hi & -> & _).
    apply insert_link_stored in Hi as (c' & _ & _ & _ & Hrow & -> & _).
    exists row. rewrite Hrow. repeat split.
  - intros e c. reflexivity.
  - intros e c target resp db' H Hr.
    destruct (update_answered _ _ _ _ _ _ _ H Hr) as [-> ->].
    split; [reflexivity | apply clicked_rows].
  - intros e c target db' H.
    apply handle_redirect_found in H as [Ht ->]. split; [exact Ht|].
    apply clicked_rows.
  - intros sched runs runs' db' He l l' Hl Hl' Hid.
    pose proof (exec_extends URL_protocol sched runs db) as Hext.
    rewrite He in Hext. simpl in Hext.
    destruct (extends_same_id _ _ _ _ Hids Hext Hl Hl' Hid)
      as (_ & _ & _ & _ & _ & Hle).
    exact Hle.
Qed.

(** The counter over two interleaved redirects, on a table reached by one
    creation. *)
Lemma total_clicks_monotone_witness :
  reachable Sample.URL_protocol Sample.db1
  /\ (forall l l',
         In l (links Sample.db1) ->
         In l' [click 2003 (click 2002 Sample.row1)] ->
         id l' = id l -> (total_clicks l <= total_clicks l')%Z).
Proof.
  assert (Hreach : reachable Sample.URL_protocol Sample.db1).
  { exact (reach_step Sample.URL_protocol (Sample.env 1000 "0.4fzyo82mvyr")
             (Pending (CreateLink (Sample.body_with "abc123"))) Store.empty
             (reach_empty _)). }
  split; [exact Hreach|].
  destruct (total_clicks_monotone Sample.URL_protocol Sample.db1 Hreach)
    as (_ & _ & _ & _ & _ & Hmono).
  apply (Hmono [(0, Sample.env 2000 "0.1"); (1, Sample.env 2001 "0.2");
                (1, Sample.env 2002 "0.3"); (0, Sample.env 2003 "0.4")]%nat
           [Pending (Redirect "abc123"); Pending (Redirect "abc123")]
           [Done (RedirectTo 302 "https://example.com");
            Done (RedirectTo 302 "https://example.com")]
           {| links := [click 2003 (click 2002 Sample.row1)];
              links_id_seq := 2 |}).
  reflexivity.
Defined.

(** ** Concurrent redirects *)

Lemma count_done_cons r runs :
  count_done (r :: runs)
  = ((if is_done r then 1 else 0) + count_done runs)%nat.
Proof. unfold count_done. simpl. destruct (is_done r); reflexivity. Qed.

Lemma count_done_le runs : (count_done runs <= List.length runs)%nat.
Proof. unfold count_done. apply filter_length_le. Qed.

(** When one row carries the code, a test over the rows with the code is a
    test of that row, and the UPDATE rewrites that row alone. *)
Lemma existsb_single (f g : Link -> bool) rows l :
  filter f rows = [l] -> existsb (fun x => f x && g x) rows = g l.
Proof.
  induction rows as [|r rows IH]; simpl; [discriminate|].
  destruct (f r) eqn:Ef; simpl.
  - intros H. injection H as -> Hnil.
    assert (Hno : existsb (fun x => f x && g x) rows = false).
    { clear -Hnil. induction rows as [|r rows IH]; simpl; [reflexivity|].
      simpl in Hnil. destruct (f r); [discriminate|]. simpl. auto. }
    rewrite Hno. apply orb_false_r.
  - exact IH.
Qed.

Lemma select_after_click c t db l :
  select_by_code c db = [l] ->
  select_by_code c
    {| links := map (fun x => if has_code c x then click t x else x) (links db);
       links_id_seq := links_id_seq db |}
  = [click t l].
Proof.
  unfold select_by_code. simpl.
  assert (H : forall rows,
             filter (has_code c)
               (map (fun x => if has_code c x then click t x else x) rows)
             = map (click t) (filter (has_code c) rows)).
  { induction rows as [|r rows IH]; simpl; [reflexivity|].
    destruct (has_code c r) eqn:E; simpl.
    - unfold has_code in *. simpl. rewrite E. simpl. now rewrite IH.
    - rewrite E. exact IH. }
  rewrite H. intros ->. reflexivity.
Qed.

Section Redirects.
Variable URL_protocol : string -> option string.
Variable c : string.
Hypothesis c_is_text : has_nul c = false.

(** One statement of one redirect: the SELECT changes nothing; the
    UPDATE answers the request and adds one click. *)
Lemma step_redirecting e r db l r' db' :
  redirecting c (target_url l) r ->
  select_by_code c db = [l] ->
  (is_done r = false -> (total_clicks l + 1 <= INTEGER_MAX)%Z) ->
  step URL_protocol e r db = (r', db') ->
  redirecting c (target_url l) r'
  /\ progress r' = Nat.min 2 (S (progress r))
  /\ ((is_done r' = is_done r /\ db' = db)
      \/ (is_done r = false /\ is_done r' = true
          /\ select_by_code c db' = [click (now e) l])).
Proof.
  intros [-> | [-> | ->]] Hsel Hroom; simpl.
  - unfold redirect_select. rewrite (refused_none_one _ c_is_text), Hsel.
    intros H. injection H as <- <-.
    split; [right; left; reflexivity | split; [reflexivity | left; auto]].
  - unfold redirect_update, update_clicks.
    rewrite (refused_none_one _ c_is_text).
    rewrite (existsb_single (has_code c)
               (fun x => (INTEGER_MAX <? total_clicks x + 1)%Z) _ l Hsel).
    specialize (Hroom eq_refl). apply Z.ltb_ge in Hroom. rewrite Hroom.
    intros H. injection H as <- <-.
    split; [right; right; reflexivity|]. split; [reflexivity|]. right.
    repeat split. now apply select_after_click.
  - intros H. injection H as <- <-.
    split; [right; right; reflexivity | split; [reflexivity | left; auto]].
Qed.

Lemma step_at_redirecting i e : forall runs db l runs' db',
  Forall (redirecting c (target_url l)) runs ->
  select_by_code c db = [l] ->
  ((count_done runs < List.length runs)%nat ->
   (total_clicks l + 1 <= INTEGER_MAX)%Z) ->
  step_at URL_protocol i e runs db = (runs', db') ->
  Forall (redirecting c (target_url l)) runs'
  /\ List.length runs' = List.length runs
  /\ (forall j, (progress_at j runs <= progress_at j runs')%nat)
  /\ (Nat.min 2 (S (progress_at i runs)) <= progress_at i runs')%nat
  /\ ((count_done runs' = count_done runs /\ db' = db)
      \/ (count_done runs' = S (count_done runs)
          /\ select_by_code c db' = [click (now e) l])).
Proof.
  induction i as [|i IH]; intros [|r runs] db l runs' db' Hall Hsel Hroom;
    simpl.
  - intros H. injection H as <- <-. repeat split; auto.
  - inversion Hall as [|? ? Hr Hrest]; subst.
    destruct (step URL_protocol e r db) as [r1 db1] eqn:Es.
    intros H. injection H as <- <-.
    assert (Hroom1 : is_done r = false ->
                     (total_clicks l + 1 <= INTEGER_MAX)%Z).
    { intros Hnd. apply Hroom. rewrite count_done_cons, Hnd. simpl.
      pose proof (count_done_le runs). lia. }
    destruct (step_redirecting e r db l r1 db1 Hr Hsel Hroom1 Es)
      as (Hr1 & Hp & Hcase).
    assert (Hle : (progress r <= 2)%nat) by (destruct r; simpl; lia).
    split; [constructor; assumption|]. split; [reflexivity|].
    split; [intros [|j]; unfold progress_at; cbn [nth_error]; lia|].
    split; [unfold progress_at; simpl; rewrite Hp;
            destruct (progress r) as [|[|k]]; simpl; lia|].
    rewrite !count_done_cons.
    destruct Hcase as [[Hd ->] | (Hd & Hd1 & Hsel1)].
    + left. now rewrite Hd.
    + right. rewrite Hd, Hd1. auto.
  - intros H. injection H as <- <-. repeat split; auto.
  - inversion Hall as [|? ? Hr Hrest]; subst.
    destruct (step_at URL_protocol i e runs db) as [runs1 db1] eqn:Es.
    intros H. injection H as <- <-.
    assert (Hroom1 : (count_done runs < List.length runs)%nat ->
                     (total_clicks l + 1 <= INTEGER_MAX)%Z).
    { intros Hlt. apply Hroom. rewrite count_done_cons. simpl.
      destruct (is_done r); lia. }
    destruct (IH runs db l runs1 db1 Hrest Hsel Hroom1 Es)
      as (Hall1 & Hlen & Hmono & Hturn & Hcase).
    split; [constructor; assumption|]. split; [simpl; now rewrite Hlen|].
    split; [intros [|j]; unfold progress_at; cbn [nth_error];
            [lia | apply (Hmono j)]|].
    split; [exact Hturn|].
    rewrite !count_done_cons.
    destruct Hcase as [[Hd ->] | [Hd Hsel1]].
    + left. now rewrite Hd.
    + right. rewrite Hd. split; [lia | exact Hsel1].
Qed.

Lemma turns_cons i e sched j :
  turns j ((i, e) :: sched)
  = ((if Nat.eqb i j then 1 else 0) + turns j sched)%nat.
Proof. unfold turns. simpl. destruct (Nat.eqb i j); reflexivity. Qed.

Lemma exec_redirecting sched : forall runs db l runs' db',
  Forall (redirecting c (target_url l)) runs ->
  select_by_code c db = [l] ->
  (total_clicks l - Z.of_nat (count_done runs)
   + Z.of_nat (List.length runs) <= INTEGER_MAX)%Z ->
  exec URL_protocol sched runs db = (runs', db') ->
  Forall (redirecting c (target_url l)) runs'
  /\ List.length runs' = List.length runs
  /\ (forall j, (Nat.min 2 (progress_at j runs + turns j sched)
                 <= progress_at j runs')%nat)
  /\ exists l',
      select_by_code c db' = [l']
      /\ target_url l' = target_url l /\ id l' = id l
      /\ (total_clicks l' - Z.of_nat (count_done runs')
          = total_clicks l - Z.of_nat (count_done runs))%Z
      /\ ((count_done runs' = count_done runs /\ l' = l)
          \/ exists i e, In (i, e) sched /\ last_clicked l' = Some (now e)).
Proof.
  induction sched as [|[i e] sched IH];
    intros runs db l runs' db' Hall Hsel Hroom; simpl.
  - intros H. injection H as <- <-.
    split; [exact Hall|]. split; [reflexivity|].
    split; [intros j; unfold turns; simpl;
            destruct (progress_at j runs) as [|[|k]]; simpl; lia|].
    exists l. repeat split; auto.
  - destruct (step_at URL_protocol i e runs db) as [runs1 db1] eqn:Es.
    intros He.
    assert (Hroom1 : (count_done runs < List.length runs)%nat ->
                     (total_clicks l + 1 <= INTEGER_MAX)%Z) by lia.
    destruct (step_at_redirecting i e runs db l runs1 db1 Hall Hsel Hroom1 Es)
      as (Hall1 & Hlen1 & Hmono & Hturn & Hcase).
    assert (Hprog : forall runs',
              (forall j, (Nat.min 2 (progress_at j runs1 + turns j sched)
                          <= progress_at j runs')%nat) ->
              forall j, (Nat.min 2 (progress_at j runs
                                    + turns j ((i, e) :: sched))
                         <= progress_at j runs')%nat).
    { intros runs2 H2 j. rewrite turns_cons. specialize (H2 j).
      specialize (Hmono j).
      destruct (Nat.eqb i j) eqn:Eij; [|lia].
      apply Nat.eqb_eq in Eij. subst j. lia. }
    destruct Hcase as [[Hd ->] | [Hd Hsel1]].
    + rewrite <- Hd, <- Hlen1 in Hroom.
      destruct (IH runs1 db l runs' db' Hall1 Hsel Hroom He)
        as (Hall' & Hlen' & Hp' & l' & Hsel' & Ht & Hid & Hcount & Hlast).
      split; [exact Hall'|]. split; [congruence|].
      split; [apply Hprog; exact Hp'|].
      exists l'. repeat split; auto; try congruence.
      destruct Hlast as [[Hd' ->] | (j & e' & Hin & Hl)].
      * left. split; congruence.
      * right. exists j, e'. split; [right; exact Hin | exact Hl].
    + assert (Hroom' : (total_clicks (click (now e) l)
                        - Z.of_nat (count_done runs1)
                        + Z.of_nat (List.length runs1) <= INTEGER_MAX)%Z).
      { simpl. rewrite Hd, Hlen1. lia. }
      destruct (IH runs1 db1 (click (now e) l) runs' db' Hall1 Hsel1
                  Hroom' He)
        as (Hall' & Hlen' & Hp' & l' & Hsel' & Ht & Hid & Hcount & Hlast).
      split; [exact Hall'|]. split; [congruence|].
      split; [apply Hprog; exact Hp'|].
      exists l'. split; [exact Hsel'|]. split; [exact Ht|].
      split; [exact Hid|].
      split; [simpl in Hcount; rewrite Hd in Hcount; lia|].
      right. destruct Hlast as [[_ ->] | (j & e' & Hin & Hl)].
      * exists i, e. split; [left; reflexivity | reflexivity].
      * exists j, e'. split; [right; exact Hin | exact Hl].
Qed.

End Redirects.

Lemma all_redirected c t runs :
  Forall (redirecting c t) runs ->
  (forall j, (2 <= progress_at j runs)%nat) ->
  runs = repeat (Done (RedirectTo 302 t)) (List.length runs)
  /\ count_done runs = List.length runs.
Proof.
  induction 1 as [|r runs Hr _ IH]; simpl; [auto|].
  intros H.
  destruct (IH (fun j => H (S j))) as [E1 E2].
  specialize (H 0%nat). unfold progress_at in H. simpl in H.
  rewrite count_done_cons, E2. rewrite <- E1.
  destruct Hr as [-> | [-> | ->]]; simpl in H; try lia. auto.
Qed.

Lemma progress_at_pending r n j :
  progress r = 0%nat ->
  (j < n)%nat \/ progress_at j (repeat r n) = 2%nat.
Proof.
  intros Hr. revert j. induction n as [|n IH]; intros j.
  - right. unfold progress_at. destruct j; reflexivity.
  - destruct j as [|j]; [left; lia|].
    destruct (IH j) as [Hlt|E]; [left; lia | right; exact E].
Qed.

(** C1, as stated, fails: the redirect handler sends two statements.  After
    the SELECT the request is not answered and nothing is written; when
    a DELETE of the same code runs before the UPDATE, the visitor is
    redirected and no click is recorded. *)
Lemma redirect_is_two_statements :
  step Sample.URL_protocol (Sample.env 2000 "0.1")
    (Pending (Redirect "abc123")) Sample.db1
  = (Selected "abc123" "https://example.com", Sample.db1)
  /\ exec Sample.URL_protocol
       [(0, Sample.env 2000 "0.1"); (1, Sample.env 2001 "0.2");
        (0, Sample.env 2002 "0.3")]%nat
       [Pending (Redirect "abc123"); Pending (DeleteLink "abc123")]
       Sample.db1
     = ([Done (RedirectTo 302 "https://example.com"); Done (SendEmpty 204)],
        {| links := []; links_id_seq := 2 |})
  /\ ~ (forall e c db l,
           select_by_code c db = [l] ->
           exists db',
             step Sample.URL_protocol e (Pending (Redirect c)) db
             = (Done (RedirectTo 302 (target_url l)), db')).
Proof.
  split; [reflexivity|]. split; [reflexivity|].
  intros H.
  destruct (H (Sample.env 2000 "0.1") "abc123" Sample.db1 Sample.row1 eq_refl)
    as [db' Hstep].
  discriminate Hstep.
Qed.

(** C1, amended. The redirect handler reads the destination with a
    SELECT, which writes nothing, and then adds the click with a separate
    UPDATE; the UPDATE is one statement that adds 1 to the stored counter.
    So when [n] redirects of a code carried by one row (a text value, with
    no NUL character) run concurrently with nothing else, every schedule
    that gives each of them its two turns, in any interleaving, answers
    each 302 with the destination, leaves the counter larger by exactly
    [n] (given room below the largest INTEGER), and for [n > 0] leaves in
    [last_clicked] the [now()] of one of the scheduled statements. *)
Theorem concurrent_redirects (URL_protocol : string -> option string) :
  forall c n sched db l,
    has_nul c = false ->
    select_by_code c db = [l] ->
    (total_clicks l + Z.of_nat n <= INTEGER_MAX)%Z ->
    (forall j, (j < n)%nat -> (2 <= turns j sched)%nat) ->
    (forall e,
        step URL_protocol e (Pending (Redirect c)) db
        = (Selected c (target_url l), db))
    /\ exists l' db',
        exec URL_protocol sched (repeat (Pending (Redirect c)) n) db
        = (repeat (Done (RedirectTo 302 (target_url l))) n, db')
        /\ select_by_code c db' = [l'] /\ id l' = id l
        /\ total_clicks l' = (total_clicks l + Z.of_nat n)%Z
        /\ (n = 0%nat
            \/ exists i e, In (i, e) sched /\ last_clicked l' = Some (now e)).
Proof.
  intros c n sched db l Hnul Hsel Hroom Hturns.
  split.
  { intros e. simpl. unfold redirect_select.
    now rewrite (refused_none_one _ Hnul), Hsel. }
  destruct (exec URL_protocol sched (repeat (Pending (Redirect c)) n) db)
    as [runs' db'] eqn:He.
  assert (Hall : Forall (redirecting c (target_url l))
                   (repeat (Pending (Redirect c)) n)).
  { apply Forall_forall. intros r Hr. apply repeat_spec in Hr as ->.
    left. reflexivity. }
  assert (Hzero : count_done (repeat (Pending (Redirect c)) n) = 0%nat).
  { clear. induction n as [|n IH]; [reflexivity|].
    simpl. rewrite count_done_cons. exact IH. }
  assert (Hroom0 : (total_clicks l
                    - Z.of_nat (count_done (repeat (Pending (Redirect c)) n))
                    + Z.of_nat (List.length (repeat (Pending (Redirect c)) n))
                    <= INTEGER_MAX)%Z).
  { rewrite Hzero, repeat_length. lia. }
  destruct (exec_redirecting URL_protocol c Hnul sched _ db l runs' db'
              Hall Hsel Hroom0 He)
    as (Hall' & Hlen & Hprog & l' & Hsel' & _ & Hid & Hcount & Hlast).
  rewrite repeat_length in Hlen.
  assert (Hdone : forall j, (2 <= progress_at j runs')%nat).
  { intros j. specialize (Hprog j).
    destruct (progress_at_pending (Pending (Redirect c)) n j eq_refl)
      as [Hlt|E]; [specialize (Hturns j Hlt)|]; lia. }
  destruct (all_redirected _ _ _ Hall' Hdone) as [Eruns Ecount].
  rewrite Hlen in Eruns, Ecount. rewrite Hzero, Ecount in Hcount, Hlast.
  exists l', db'. split; [now rewrite Eruns|].
  split; [exact Hsel'|]. split; [exact Hid|]. split; [lia|].
  destruct Hlast as [[-> _] | Hev]; [left; reflexivity | right; exact Hev].
Qed.

(** Two redirects of ["abc123"] whose statements alternate. *)
Lemma concurrent_redirects_witness :
  exists l' db',
    exec Sample.URL_protocol
      [(0, Sample.env 2000 "0.1"); (1, Sample.env 2001 "0.2");
       (1, Sample.env 2002 "0.3"); (0, Sample.env 2003 "0.4")]%nat
      (repeat (Pending (Redirect "abc123")) 2) Sample.db1
    = (repeat (Done (RedirectTo 302 (target_url Sample.row1))) 2, db')
    /\ select_by_code "abc123" db' = [l'] /\ id l' = id Sample.row1
    /\ total_clicks l' = (total_clicks Sample.row1 + Z.of_nat 2)%Z
    /\ (2%nat = 0%nat
        \/ exists i e,
            In (i, e)
              [(0, Sample.env 2000 "0.1"); (1, Sample.env 2001 "0.2");
               (1, Sample.env 2002 "0.3"); (0, Sample.env 2003 "0.4")]%nat
            /\ last_clicked l' = Some (now e)).
Proof.
  apply (concurrent_redirects Sample.URL_protocol "abc123" 2
           [(0, Sample.env 2000 "0.1"); (1, Sample.env 2001 "0.2");
            (1, Sample.env 2002 "0.3"); (0, Sample.env 2003 "0.4")]%nat
           Sample.db1 Sample.row1).
  - reflexivity.
  - reflexivity.
  - unfold INTEGER_MAX. simpl. lia.
  - intros [|[|j]] Hj; [unfold turns; simpl; lia | unfold turns; simpl; lia
                        | lia].
Defined.

(* ================================================================= *)
(** * Further properties of the handlers and the validators *)

(** ** The e-mail validator *)

Lemma chars_app s1 s2 : chars (s1 ++ s2) = (chars s1 ++ chars s2)%list.
Proof.
  unfold chars. induction s1 as [|a s1 IH]; simpl; [reflexivity|].
  now rewrite IH.
Qed.

Lemma all_in_app p s1 s2 :
  all_in p (s1 ++ s2) <-> all_in p s1 /\ all_in p s2.
Proof. unfold all_in. rewrite chars_app. apply Forall_app. Qed.

Lemma star_class_lang p s : lang (Star (Class p)) s <-> all_in p s.
Proof.
  split.
  - intros H. remember (Star (Class p)) as r eqn:Er.
    induction H as [ | | | | | | r0 s1 s2 H1 _ H2 IH2]; try discriminate.
    + constructor.
    + injection Er as ->. apply all_in_app. split; [|now apply IH2].
      apply RegexFacts.lang_class_inv in H1 as (a & -> & Ha).
      repeat constructor. exact Ha.
  - unfold all_in, chars. induction s as [|a s IH]; simpl; intros H.
    + constructor.
    + inversion H; subst.
      apply (L_star_cons _ (String a "") s); [now constructor | auto].
Qed.

Lemma plus_class_lang p s :
  lang (Plus (Class p)) s <-> s <> "" /\ all_in p s.
Proof.
  unfold Plus. split.
  - intros H. apply RegexFacts.lang_cat_inv in H as (s1 & s2 & -> & H1 & H2).
    apply RegexFacts.lang_class_inv in H1 as (a & -> & Ha).
    apply star_class_lang in H2. split; [discriminate|].
    apply (all_in_app p (String a "") s2). split; [|exact H2].
    repeat constructor. exact Ha.
  - intros [Hne Hall]. destruct s as [|a s]; [congruence|].
    apply (all_in_app p (String a "") s) in Hall as [Ha Hs].
    inversion Ha; subst.
    apply (L_cat _ _ (String a "") s); [now constructor|].
    now apply star_class_lang.
Qed.

Lemma is_char_lang ch s : lang (Class (is_char ch)) s <-> s = String ch "".
Proof.
  split.
  - intros H. apply RegexFacts.lang_class_inv in H as (a & -> & Ha).
    apply Ascii.eqb_eq in Ha. now subst.
  - intros ->. constructor. apply Ascii.eqb_refl.
Qed.

Lemma isValidEmail_iff s :
  isValidEmail s = true <->
  exists name host tld,
    s = name ++ "@" ++ host ++ "." ++ tld
    /\ (name <> "" /\ all_in not_space_at name)
    /\ (host <> "" /\ all_in not_space_at host)
    /\ (tld <> "" /\ all_in not_space_at tld).
Proof.
  unfold isValidEmail, email_pattern. rewrite RegexFacts.test_lang. split.
  - intros H.
    apply RegexFacts.lang_cat_inv in H as (name & s1 & -> & Hn & H).
    apply RegexFacts.lang_cat_inv in H as (at_ & s2 & -> & Ha & H).
    apply RegexFacts.lang_cat_inv in H as (host & s3 & -> & Hh & H).
    apply RegexFacts.lang_cat_inv in H as (dot & tld & -> & Hd & Ht).
    apply is_char_lang in Ha as ->. apply is_char_lang in Hd as ->.
    exists name, host, tld. rewrite <- !plus_class_lang. auto.
  - intros (name & host & tld & -> & Hn & Hh & Ht).
    rewrite <- plus_class_lang in Hn, Hh, Ht.
    apply L_cat; [exact Hn|].
    apply (L_cat _ _ "@"); [now apply is_char_lang|].
    apply L_cat; [exact Hh|].
    apply (L_cat _ _ "."); [now apply is_char_lang | exact Ht].
Qed.

(** X1. [isValidEmail] accepts exactly the strings [name@host.tld] whose
    three parts are non-empty and hold no white space and no ["@"]; the
    host and the last part may hold further dots. *)
Theorem isValidEmail_spec :
  forall s,
    isValidEmail s = true <->
    exists name host tld,
      s = name ++ "@" ++ host ++ "." ++ tld
      /\ (name <> "" /\ all_in not_space_at name)
      /\ (host <> "" /\ all_in not_space_at host)
      /\ (tld <> "" /\ all_in not_space_at tld).
Proof. exact isValidEmail_iff. Qed.

Lemma isValidEmail_spec_witness :
  isValidEmail "first.last@mail.example.com" = true.
Proof.
  apply (proj2 (isValidEmail_spec "first.last@mail.example.com")).
  exists "first.last", "mail", "example.com".
  split; [reflexivity|].
  repeat split; try discriminate;
    unfold all_in; simpl; repeat constructor.
Defined.

Lemma occurrences_app ch s1 s2 :
  occurrences ch (s1 ++ s2) = (occurrences ch s1 + occurrences ch s2)%nat.
Proof.
  unfold occurrences. now rewrite chars_app, filter_app, length_app.
Qed.

Lemma not_space_at_no_at s :
  all_in not_space_at s ->
  occurrences "@" s = 0%nat /\ Forall (fun a => is_space a = false) (chars s).
Proof.
  unfold all_in, occurrences. generalize (chars s) as cs.
  induction 1 as [|a rest Ha _ [IH1 IH2]]; [split; [reflexivity|constructor]|].
  unfold not_space_at, is_char in Ha.
  apply negb_true_iff, orb_false_iff in Ha as [Hs Hat].
  cbn [filter]. rewrite Hat. split; [exact IH1 | constructor; assumption].
Qed.

Lemma nonempty_length s : s <> "" -> (1 <= String.length s)%nat.
Proof. destruct s; [congruence | simpl; lia]. Qed.

Lemma length_app_string s1 s2 :
  String.length (s1 ++ s2) = (String.length s1 + String.length s2)%nat.
Proof. induction s1 as [|a s1 IH]; simpl; [reflexivity | now rewrite IH]. Qed.

(** X2. An address that [isValidEmail] accepts holds exactly one ["@"], no
    white space, and at least five characters. *)
Theorem valid_email_shape :
  forall s,
    isValidEmail s = true ->
    occurrences "@" s = 1%nat
    /\ Forall (fun a => is_space a = false) (chars s)
    /\ (5 <= String.length s)%nat.
Proof.
  intros s H.
  apply isValidEmail_iff in H
    as (name & host & tld & -> & [Hn1 Hn] & [Hh1 Hh] & [Ht1 Ht]).
  apply not_space_at_no_at in Hn as [Hn Hns].
  apply not_space_at_no_at in Hh as [Hh Hhs].
  apply not_space_at_no_at in Ht as [Ht Hts].
  apply nonempty_length in Hn1, Hh1, Ht1.
  rewrite !occurrences_app, !chars_app, !length_app_string, Hn, Hh, Ht.
  split; [reflexivity|]. split; [|simpl; lia].
  repeat (apply Forall_app; split); auto; repeat constructor.
Qed.

Lemma valid_email_shape_witness :
  occurrences "@" "a@b.com" = 1%nat
  /\ Forall (fun a => is_space a = false) (chars "a@b.com")
  /\ (5 <= String.length "a@b.com")%nat.
Proof. apply (valid_email_shape "a@b.com"). reflexivity. Defined.

(** ** POST /api/links: refusals and successes *)

Lemma take_length_min n : forall s,
  String.length (take n s) = Nat.min n (String.length s).
Proof.
  induction n as [|n IH]; intros [|a s]; simpl; try reflexivity.
  now rewrite IH.
Qed.

Lemma chars_take (P : ascii -> Prop) n : forall s,
  Forall P (chars s) -> Forall P (chars (take n s)).
Proof.
  unfold chars.
  induction n as [|n IH]; intros [|a s] H; simpl; try constructor.
  - inversion H; assumption.
  - inversion H; subst. now apply IH.
Qed.


Lemma code_taken_false c db :
  code_taken c db = false <-> ~ In c (map code (links db)).
Proof.
  unfold code_taken. split.
  - intros H Hin. apply in_map_iff in Hin as (l & E & Hl).
    assert (Ht : existsb (has_code c) (links db) = true).
    { apply existsb_exists. exists l. split; [exact Hl|].
      unfold has_code. rewrite E. apply String.eqb_refl. }
    congruence.
  - intros H. destruct (existsb (has_code c) (links db)) eqn:E; [|reflexivity].
    exfalso. apply H. apply existsb_exists in E as (l & Hl & Hc).
    apply String.eqb_eq in Hc. apply in_map_iff. eauto.
Qed.



(** X3. A creation request whose URL the validator refuses is answered
    400 "Invalid URL", and one with a valid URL and a refused e-mail
    address 400 "Invalid email"; in both cases whatever the code and with
    no statement sent to the table. *)
Theorem invalid_url_or_email_rejected
  (URL_protocol : string -> option string) :
  forall e b db,
    (isValidUrl URL_protocol (url b) = false ->
     handle URL_protocol e (CreateLink b) db
     = (Done (SendJson 400 (error_body "Invalid URL")), db))
    /\ (isValidUrl URL_protocol (url b) = true ->
        isValidEmail (owner b) = false ->
        handle URL_protocol e (CreateLink b) db
        = (Done (SendJson 400 (error_body "Invalid email")), db)).
Proof.
  intros e b db. rewrite handle_create. unfold create_link.
  split.
  - intros ->. reflexivity.
  - intros -> ->. reflexivity.
Qed.

Lemma invalid_url_or_email_rejected_witness :
  handle Sample.URL_protocol (Sample.env 1000 "0.4fzyo82mvyr")
    (CreateLink {| url := "ftp://x"; custom_code := None;
                   owner := "a@b.com" |}) Sample.db1
  = (Done (SendJson 400 (error_body "Invalid URL")), Sample.db1)
  /\ handle Sample.URL_protocol (Sample.env 1000 "0.4fzyo82mvyr")
       (CreateLink {| url := "https://example.com"; custom_code := None;
                      owner := "a b@c.com" |}) Sample.db1
     = (Done (SendJson 400 (error_body "Invalid email")), Sample.db1).
Proof.
  split.
  - apply (proj1 (invalid_url_or_email_rejected Sample.URL_protocol
                    (Sample.env 1000 "0.4fzyo82mvyr")
                    {| url := "ftp://x"; custom_code := None;
                       owner := "a@b.com" |} Sample.db1)).
    reflexivity.
  - apply (proj2 (invalid_url_or_email_rejected Sample.URL_protocol
                    (Sample.env 1000 "0.4fzyo82mvyr")
                    {| url := "https://example.com"; custom_code := None;
                       owner := "a b@c.com" |} Sample.db1));
      reflexivity.
Defined.



Lemma base36_alnum a : base36_digit a = true -> ascii_letter_or_digit a.
Proof.
  intros H. apply alnum_spec. unfold base36_digit in H. unfold alnum.
  apply orb_true_iff in H as [H|H]; rewrite H;
    [apply orb_true_r | rewrite orb_true_r; reflexivity].
Qed.

(** X5. When [Math.random().toString(36)] prints ["0."] and then base-36
    digits, the generated code is the first 8 of these digits (all of them
    when there are fewer), and it passes the code validator exactly when
    the print has at least 6 digits. *)
Theorem generated_code_valid_iff :
  forall e digits,
    random36 e = "0." ++ digits ->
    all_in base36_digit digits ->
    generate e = take 8 digits
    /\ String.length (generate e) = Nat.min 8 (String.length digits)
    /\ (isValidCode (generate e) = true <-> (6 <= String.length digits)%nat).
Proof.
  intros e digits Hr Hd.
  assert (Hg : generate e = take 8 digits).
  { unfold generate, slice. rewrite Hr. reflexivity. }
  rewrite Hg, take_length_min.
  split; [reflexivity|]. split; [reflexivity|].
  rewrite isValidCode_iff. unfold well_formed_code.
  rewrite take_length_min. split.
  - intros [Hl _]. lia.
  - intros Hl. split; [lia|].
    apply chars_take. unfold all_in in Hd.
    eapply Forall_impl; [|exact Hd]. apply base36_alnum.
Qed.

Lemma generated_code_valid_iff_witness :
  generate (Sample.env 1000 "0.4fzyo82mvyr") = take 8 "4fzyo82mvyr"
  /\ String.length (generate (Sample.env 1000 "0.4fzyo82mvyr"))
     = Nat.min 8 (String.length "4fzyo82mvyr")
  /\ (isValidCode (generate (Sample.env 1000 "0.4fzyo82mvyr")) = true
      <-> (6 <= String.length "4fzyo82mvyr")%nat).
Proof.
  apply (generated_code_valid_iff (Sample.env 1000 "0.4fzyo82mvyr")
           "4fzyo82mvyr").
  - reflexivity.
  - unfold all_in. simpl. repeat constructor.
Defined.



(** ** DELETE /api/links/:code *)

Lemma handle_delete URL_protocol e c db :
  handle URL_protocol e (DeleteLink c) db
  = (Done (fst (delete_link c db)), snd (delete_link c db)).
Proof.
  unfold handle. simpl. destruct (delete_link c db) as [resp db'].
  reflexivity.
Qed.

Lemma row_count_zero c rows :
  Nat.eqb (List.length (filter (has_code c) rows)) 0
  = negb (existsb (has_code c) rows).
Proof.
  induction rows as [|r rows IH]; simpl; [reflexivity|].
  destruct (has_code c r); simpl; [reflexivity | exact IH].
Qed.

Lemma filter_other_codes c rows :
  existsb (has_code c) rows = false ->
  filter (fun l => negb (has_code c l)) rows = rows.
Proof.
  induction rows as [|r rows IH]; simpl; [reflexivity|].
  intros H. apply orb_false_iff in H as [Hr Hrows].
  rewrite Hr. simpl. now rewrite IH.
Qed.

Lemma code_taken_after_delete c db :
  code_taken c (snd (delete_by_code c db)) = false.
Proof.
  unfold code_taken, delete_by_code. simpl.
  induction (links db) as [|r rows IH]; simpl; [reflexivity|].
  destruct (has_code c r) eqn:E; simpl; [exact IH|].
  rewrite E. exact IH.
Qed.

(** X7. Deleting a code that a row carries (a text value, with no NUL
    character) is answered 204; afterwards no row carries the code, the
    rows with other codes are all there, in their order and unchanged, and
    the sequence has not moved. *)
Theorem delete_existing_code (URL_protocol : string -> option string) :
  forall e c db,
    has_nul c = false ->
    code_taken c db = true ->
    exists db',
      handle URL_protocol e (DeleteLink c) db = (Done (SendEmpty 204), db')
      /\ code_taken c db' = false
      /\ links db' = filter (fun l => negb (String.eqb (code l) c)) (links db)
      /\ links_id_seq db' = links_id_seq db.
Proof.
  intros e c db Hnul Ht. rewrite handle_delete.
  unfold delete_link. rewrite (refused_none_one _ Hnul).
  pose proof (code_taken_after_delete c db) as Hafter.
  unfold delete_by_code in *. simpl in Hafter.
  rewrite row_count_zero. unfold code_taken in Ht. rewrite Ht. simpl.
  eexists. split; [reflexivity|]. split; [exact Hafter|].
  split; reflexivity.
Qed.

Lemma delete_existing_code_witness :
  exists db',
    handle Sample.URL_protocol (Sample.env 3000 "0.1") (DeleteLink "abc123")
      Sample.db3
    = (Done (SendEmpty 204), db')
    /\ code_taken "abc123" db' = false
    /\ links db'
       = filter (fun l => negb (String.eqb (code l) "abc123"))
           (links Sample.db3)
    /\ links_id_seq db' = links_id_seq Sample.db3.
Proof.
  apply (delete_existing_code Sample.URL_protocol (Sample.env 3000 "0.1")
           "abc123" Sample.db3); reflexivity.
Defined.

Lemma delete_missing c db :
  has_nul c = false ->
  code_taken c db = false ->
  delete_link c db = (SendJson 404 (error_body "not found"), db).
Proof.
  intros Hnul Ht. unfold delete_link, delete_by_code.
  rewrite (refused_none_one _ Hnul).
  rewrite row_count_zero. unfold code_taken in Ht. rewrite Ht. simpl.
  rewrite (filter_other_codes _ _ Ht). destruct db; reflexivity.
Qed.

Lemma code_taken_after_delete_link c db :
  has_nul c = false -> code_taken c (snd (delete_link c db)) = false.
Proof.
  intros Hnul. pose proof (code_taken_after_delete c db) as H.
  unfold delete_link. rewrite (refused_none_one _ Hnul).
  unfold delete_by_code in *. simpl in H.
  destruct (Nat.eqb _ 0); exact H.
Qed.

(** X8. Deleting a code with no NUL character that no row carries is
    answered 404 "not found" and leaves the table as it was; so a second
    deletion of such a code, whatever the first one did, is answered 404
    and changes nothing.  For a code that holds a NUL character the store
    refuses the parameter and the request is answered 500 "internal
    error", the table unchanged. *)
Theorem delete_missing_code (URL_protocol : string -> option string) :
  forall e c db,
    (has_nul c = false -> code_taken c db = false ->
     handle URL_protocol e (DeleteLink c) db
     = (Done (SendJson 404 (error_body "not found")), db))
    /\ (has_nul c = false ->
        forall e',
          handle URL_protocol e' (DeleteLink c)
            (snd (handle URL_protocol e (DeleteLink c) db))
          = (Done (SendJson 404 (error_body "not found")),
             snd (handle URL_protocol e (DeleteLink c) db)))
    /\ (has_nul c = true ->
        handle URL_protocol e (DeleteLink c) db
        = (Done (SendJson 500 (error_body "internal error")), db)).
Proof.
  intros e c db. split; [|split].
  - intros Hnul Ht.
    rewrite handle_delete, (delete_missing _ _ Hnul Ht). reflexivity.
  - intros Hnul e'. rewrite (handle_delete _ e c db). simpl.
    rewrite handle_delete,
      (delete_missing _ _ Hnul (code_taken_after_delete_link c db Hnul)).
    reflexivity.
  - intros Hnul. rewrite handle_delete. unfold delete_link.
    rewrite refused_one, Hnul. reflexivity.
Qed.

Lemma delete_missing_code_witness :
  handle Sample.URL_protocol (Sample.env 3000 "0.1") (DeleteLink "nosuch1")
    Sample.db3
  = (Done (SendJson 404 (error_body "not found")), Sample.db3)
  /\ handle Sample.URL_protocol (Sample.env 3000 "0.1")
       (DeleteLink (String zero "abc")) Sample.db3
     = (Done (SendJson 500 (error_body "internal error")), Sample.db3).
Proof.
  split.
  - apply (proj1 (delete_missing_code Sample.URL_protocol
                    (Sample.env 3000 "0.1") "nosuch1" Sample.db3));
      reflexivity.
  - apply (proj2 (proj2 (delete_missing_code Sample.URL_protocol
                           (Sample.env 3000 "0.1") (String zero "abc")
                           Sample.db3))).
    reflexivity.
Defined.

(** X9. After a deletion of a code with no NUL character, whatever was
    answered, a redirect of that code is answered 404 "Not found" and its
    details 404 "not found", and neither changes the table. *)
Theorem deleted_code_not_found (URL_protocol : string -> option string) :
  forall e e' c db,
    has_nul c = false ->
    handle URL_protocol e' (Redirect c)
      (snd (handle URL_protocol e (DeleteLink c) db))
    = (Done (SendText 404 "Not found"),
       snd (handle URL_protocol e (DeleteLink c) db))
    /\ handle URL_protocol e' (LinkDetails c)
         (snd (handle URL_protocol e (DeleteLink c) db))
       = (Done (SendJson 404 (error_body "not found")),
          snd (handle URL_protocol e (DeleteLink c) db)).
Proof.
  intros e e' c db Hnul. rewrite (handle_delete _ e c db). simpl.
  pose proof (code_taken_after_delete_link c db Hnul) as Hafter.
  apply select_by_code_free in Hafter.
  unfold handle. simpl. unfold redirect_select, link_details.
  rewrite (refused_none_one _ Hnul), Hafter. split; reflexivity.
Qed.

Lemma deleted_code_not_found_witness :
  handle Sample.URL_protocol (Sample.env 3001 "0.2") (Redirect "abc123")
    (snd (handle Sample.URL_protocol (Sample.env 3000 "0.1")
            (DeleteLink "abc123") Sample.db3))
  = (Done (SendText 404 "Not found"),
     snd (handle Sample.URL_protocol (Sample.env 3000 "0.1")
            (DeleteLink "abc123") Sample.db3))
  /\ handle Sample.URL_protocol (Sample.env 3001 "0.2")
       (LinkDetails "abc123")
       (snd (handle Sample.URL_protocol (Sample.env 3000 "0.1")
               (DeleteLink "abc123") Sample.db3))
     = (Done (SendJson 404 (error_body "not found")),
        snd (handle Sample.URL_protocol (Sample.env 3000 "0.1")
               (DeleteLink "abc123") Sample.db3)).
Proof.
  apply (deleted_code_not_found Sample.URL_protocol (Sample.env 3000 "0.1")
           (Sample.env 3001 "0.2") "abc123" Sample.db3).
  reflexivity.
Defined.

(** ** Creation followed by a lookup *)

Lemma select_by_code_new c rows row seq :
  existsb (has_code c) rows = false ->
  code row = c ->
  select_by_code c {| links := rows ++ [row]; links_id_seq := seq |} = [row].
Proof.
  intros Hfree Hc. unfold select_by_code. simpl. rewrite filter_app. simpl.
  unfold has_code at 2. rewrite Hc, String.eqb_refl.
  assert (Hnone : filter (has_code c) rows = []).
  { clear -Hfree. induction rows as [|r rows IH]; simpl; [reflexivity|].
    simpl in Hfree. apply orb_false_iff in Hfree as [Hr Hrows].
    rewrite Hr. auto. }
  now rewrite Hnone.
Qed.

Lemma created_row_selected URL_protocol e b db body db1 :
  handle URL_protocol e (CreateLink b) db = (Done (SendJson 201 body), db1) ->
  exists row,
    body = row_json row /\ select_by_code (code row) db1 = [row]
    /\ target_url row = url b /\ email row = owner b
    /\ total_clicks row = 0%Z /\ last_clicked row = None
    /\ isValidEmail (owner b) = true
    /\ has_nul (code row) = false /\ has_nul (owner b) = false.
Proof.
  intros H. rewrite handle_create in H.
  destruct (create_link URL_protocol b e db) as [resp dbx] eqn:Ec.
  simpl in H. injection H as -> ->.
  assert (Hm : isValidEmail (owner b) = true).
  { unfold create_link in Ec.
    destruct (negb (isValidUrl URL_protocol (url b))); [discriminate|].
    destruct (isValidEmail (owner b)); [reflexivity | discriminate]. }
  apply create_link_created in Ec as (c & row & Hi & -> & _).
  apply insert_link_stored in Hi
    as (c' & _ & Hf & Hfree & Hrow & -> & Hnm & _).
  subst row. eexists. split; [reflexivity|].
  split; [apply select_by_code_new; [exact Hfree | reflexivity]|].
  simpl. repeat split; auto. now apply has_nul_valid.
Qed.

(** X10. After a creation answered 201, the details of the code in the
    answer are answered 200 with the very record the creation returned. *)
Theorem created_link_details (URL_protocol : string -> option string) :
  forall e e' b db body db1,
    handle URL_protocol e (CreateLink b) db
    = (Done (SendJson 201 body), db1) ->
    exists row,
      body = row_json row
      /\ handle URL_protocol e' (LinkDetails (code row)) db1
         = (Done (SendJson 200 body), db1).
Proof.
  intros e e' b db body db1 H.
  apply created_row_selected in H
    as (row & -> & Hsel & _ & _ & _ & _ & _ & Hnul & _).
  exists row. split; [reflexivity|].
  unfold handle. simpl. unfold link_details.
  now rewrite (refused_none_one _ Hnul), Hsel.
Qed.

Lemma created_link_details_witness :
  exists row,
    row_json Sample.row1 = row_json row
    /\ handle Sample.URL_protocol (Sample.env 2000 "0.1")
         (LinkDetails (code row)) Sample.db1
       = (Done (SendJson 200 (row_json Sample.row1)), Sample.db1).
Proof.
  apply (created_link_details Sample.URL_protocol
           (Sample.env 1000 "0.4fzyo82mvyr") (Sample.env 2000 "0.1")
           (Sample.body_with "abc123") Store.empty).
  reflexivity.
Defined.

Lemma handle_redirect_single URL_protocol e c db l :
  has_nul c = false ->
  select_by_code c db = [l] ->
  (total_clicks l + 1 <= INTEGER_MAX)%Z ->
  handle URL_protocol e (Redirect c) db
  = (Done (RedirectTo 302 (target_url l)),
     {| links := map (fun x => if has_code c x then click (now e) x else x)
                   (links db);
        links_id_seq := links_id_seq db |})
  /\ select_by_code c
       {| links := map (fun x => if has_code c x then click (now e) x else x)
                     (links db);
          links_id_seq := links_id_seq db |}
     = [click (now e) l].
Proof.
  intros Hnul Hsel Hroom. split; [|now apply select_after_click].
  unfold handle. simpl. unfold redirect_select.
  rewrite (refused_none_one _ Hnul), Hsel. simpl.
  unfold redirect_update, update_clicks. rewrite (refused_none_one _ Hnul).
  rewrite (existsb_single (has_code c)
             (fun x => (INTEGER_MAX <? total_clicks x + 1)%Z) _ l Hsel).
  apply Z.ltb_ge in Hroom. now rewrite Hroom.
Qed.

(** X11. After a creation answered 201, a redirect of the code in the
    answer is answered 302 to the URL of the request, and the details of
    the code then show the same record with counter 1 and [last_clicked]
    the time of the redirect. *)
Theorem created_link_redirects (URL_protocol : string -> option string) :
  forall e e1 e2 b db body db1,
    handle URL_protocol e (CreateLink b) db
    = (Done (SendJson 201 body), db1) ->
    exists row db2,
      body = row_json row
      /\ handle URL_protocol e1 (Redirect (code row)) db1
         = (Done (RedirectTo 302 (url b)), db2)
      /\ handle URL_protocol e2 (LinkDetails (code row)) db2
         = (Done (SendJson 200
                    (row_json {| id := id row; code := code row;
                                 target_url := url b; email := owner b;
                                 total_clicks := 1;
                                 last_clicked := Some (now e1);
                                 created_at := created_at row |})),
            db2).
Proof.
  intros e e1 e2 b db body db1 H.
  apply created_row_selected in H
    as (row & -> & Hsel & Hu & Hm & Hzero & _ & _ & Hnul & _).
  assert (Hroom : (total_clicks row + 1 <= INTEGER_MAX)%Z).
  { rewrite Hzero. unfold INTEGER_MAX. lia. }
  destruct (handle_redirect_single URL_protocol e1 _ _ _ Hnul Hsel Hroom)
    as [Hred Hsel2].
  exists row. eexists. split; [reflexivity|].
  split; [rewrite <- Hu; exact Hred|].
  unfold handle. simpl. unfold link_details.
  rewrite (refused_none_one _ Hnul), Hsel2.
  unfold click. rewrite Hu, Hm, Hzero. reflexivity.
Qed.

Lemma created_link_redirects_witness :
  exists row db2,
    row_json Sample.row1 = row_json row
    /\ handle Sample.URL_protocol (Sample.env 2000 "0.1")
         (Redirect (code row)) Sample.db1
       = (Done (RedirectTo 302 (url (Sample.body_with "abc123"))), db2)
    /\ handle Sample.URL_protocol (Sample.env 2001 "0.2")
         (LinkDetails (code row)) db2
       = (Done (SendJson 200
                  (row_json {| id := id row; code := code row;
                               target_url := url (Sample.body_with "abc123");
                               email := owner (Sample.body_with "abc123");
                               total_clicks := 1;
                               last_clicked :=
                                 Some (now (Sample.env 2000 "0.1"));
                               created_at := created_at row |})),
          db2).
Proof.
  apply (created_link_redirects Sample.URL_protocol
           (Sample.env 1000 "0.4fzyo82mvyr") (Sample.env 2000 "0.1")
           (Sample.env 2001 "0.2") (Sample.body_with "abc123") Store.empty).
  reflexivity.
Defined.

(** X12. After a creation answered 201, the listing for the e-mail address
    of the request is answered 200 with rows of that owner only, and the
    created record is among them. *)
Theorem created_link_listed (URL_protocol : string -> option string) :
  forall e e' b db body db1,
    handle URL_protocol e (CreateLink b) db
    = (Done (SendJson 201 body), db1) ->
    exists row rows,
      body = row_json row
      /\ handle URL_protocol e' (ListLinks (Some (owner b))) db1
         = (Done (SendJson 200 (JArr (map row_json rows))), db1)
      /\ In row rows
      /\ Forall (fun l => email l = owner b) rows.
Proof.
  intros e e' b db body db1 H.
  apply created_row_selected in H
    as (row & -> & Hsel & _ & Hm & _ & _ & Hv & _ & Hnm).
  destruct (owner b) as [|a m] eqn:Eo; [discriminate Hv|].
  exists row, (select_by_email (String a m) db1).
  split; [reflexivity|].
  split; [unfold handle; simpl; unfold list_links;
          now rewrite (refused_none_one _ Hnm)|].
  assert (Hin : In row (links db1)).
  { assert (Hf : In row (select_by_code (code row) db1))
      by (rewrite Hsel; left; reflexivity).
    apply filter_In in Hf. exact (proj1 Hf). }
  unfold select_by_email. split.
  - apply (Permutation_in _ (Permutation_sym (order_by_perm _))).
    apply filter_In. split; [exact Hin|]. rewrite Hm.
    apply String.eqb_refl.
  - apply Forall_forall. intros l Hl.
    apply (Permutation_in _ (order_by_perm _)) in Hl.
    apply filter_In in Hl as [_ Hl]. now apply String.eqb_eq in Hl.
Qed.

Lemma created_link_listed_witness :
  exists row rows,
    row_json Sample.row1 = row_json row
    /\ handle Sample.URL_protocol (Sample.env 2000 "0.1")
         (ListLinks (Some (owner (Sample.body_with "abc123")))) Sample.db1
       = (Done (SendJson 200 (JArr (map row_json rows))), Sample.db1)
    /\ In row rows
    /\ Forall (fun l => email l = owner (Sample.body_with "abc123")) rows.
Proof.
  apply (created_link_listed Sample.URL_protocol
           (Sample.env 1000 "0.4fzyo82mvyr") (Sample.env 2000 "0.1")
           (Sample.body_with "abc123") Store.empty).
  reflexivity.
Defined.

(** ** What every table of the program satisfies *)

Lemma NoDup_map_filter {A B : Type} (f : A -> B) (p : A -> bool) rows :
  NoDup (map f rows) -> NoDup (map f (filter p rows)).
Proof.
  induction rows as [|r rows IH]; simpl; [auto|].
  intros H. inversion H as [|? ? Hnotin Hrest]; subst.
  destruct (p r); simpl; [|auto].
  constructor; [|auto]. intros Hin. apply Hnotin.
  apply in_map_iff in Hin as (x & E & Hx). apply filter_In in Hx as [Hx _].
  apply in_map_iff. eauto.
Qed.

(** The rows after one statement: the same rows, one more row with a
    well-formed code that no row had, fewer rows, or the rows with the
    counters of one code moved up by one within the INTEGER range. *)
Lemma step_rows URL_protocol e r db :
  links (snd (step URL_protocol e r db)) = links db
  \/ (exists row,
         links (snd (step URL_protocol e r db)) = (links db ++ [row])%list
         /\ isValidCode (code row) = true
         /\ code_taken (code row) db = false
         /\ total_clicks row = 0%Z)
  \/ (exists p, links (snd (step URL_protocol e r db)) = filter p (links db))
  \/ (exists c,
         links (snd (step URL_protocol e r db))
         = map (fun x => if has_code c x then click (now e) x else x)
             (links db)
         /\ Forall (fun x => has_code c x = true ->
                             (total_clicks x + 1 <= INTEGER_MAX)%Z)
              (links db)).
Proof.
  assert (Ht : forall b c,
             links (snd (try_insert c b e db)) = links db
             \/ (exists row,
                    links (snd (try_insert c b e db))
                    = (links db ++ [row])%list
                    /\ isValidCode (code row) = true
                    /\ code_taken (code row) db = false
                    /\ total_clicks row = 0%Z)).
  { intros b c. unfold try_insert.
    destruct (insert_link c (url b) (owner b) (now e) db)
      as [[row|err] db'] eqn:Ei.
    - apply insert_link_stored in Ei
        as (c' & _ & Hf & Hfree & Hrow & -> & _).
      right. exists row. simpl. rewrite Hrow. simpl. auto.
    - apply insert_link_refused in Ei as [-> | ->];
        left; destruct (String.eqb (sqlstate err) "23505"); reflexivity. }
  destruct r as [[em|b|c|c|c]|c target|resp]; simpl; auto.
  - assert (Hc : links (snd (create_link URL_protocol b e db)) = links db
                 \/ (exists row,
                        links (snd (create_link URL_protocol b e db))
                        = (links db ++ [row])%list
                        /\ isValidCode (code row) = true
                        /\ code_taken (code row) db = false
                        /\ total_clicks row = 0%Z)).
    { unfold create_link.
      destruct (negb (isValidUrl URL_protocol (url b))); [auto|].
      destruct (negb (isValidEmail (owner b))); [auto|].
      destruct (custom_code b) as [[|a s]|]; try apply Ht.
      destruct (negb (isValidCode (String a s))); [auto | apply Ht]. }
    destruct (create_link URL_protocol b e db) as [resp db']. simpl in *.
    destruct Hc as [Hc|Hc]; auto.
  - unfold delete_link, delete_by_code.
    destruct (refused [c]); [auto|].
    right. right. left. exists (fun l => negb (has_code c l)).
    destruct (Nat.eqb _ 0); reflexivity.
  - unfold redirect_update, update_clicks.
    destruct (refused [c]); [auto|].
    destruct (existsb _ (links db)) eqn:Ex; simpl; [auto|].
    right. right. right. exists c. split; [reflexivity|].
    apply Forall_forall. intros x Hx Hc.
    destruct (INTEGER_MAX <? total_clicks x + 1)%Z eqn:El;
      [|now apply Z.ltb_ge in El].
    assert (Ht' : existsb (fun l => has_code c l
                                    && (INTEGER_MAX <? total_clicks l + 1)%Z)
                    (links db) = true).
    { apply existsb_exists. exists x. rewrite Hc, El. auto. }
    congruence.
Qed.

Lemma reachable_schema URL_protocol db :
  reachable URL_protocol db ->
  NoDup (map code (links db))
  /\ Forall (fun l => isValidCode (code l) = true) (links db)
  /\ Forall (fun l => (total_clicks l <= INTEGER_MAX)%Z) (links db).
Proof.
  induction 1 as [|e r db _ (Hnd & Hok & Hmax)].
  - simpl. repeat split; constructor.
  - destruct (step_rows URL_protocol e r db)
      as [-> | [(row & -> & Hv & Hfree & Hz) | [(p & ->) | (c & -> & Hroom)]]].
    + auto.
    + rewrite map_app. simpl. split; [|split].
      * apply NoDup_app; [exact Hnd | repeat constructor; auto |].
        intros x Hx [<-|[]]. now apply code_taken_false in Hfree.
      * apply Forall_app. split; [exact Hok | repeat constructor; exact Hv].
      * apply Forall_app. split; [exact Hmax|].
        repeat constructor. rewrite Hz. unfold INTEGER_MAX. lia.
    + split; [now apply NoDup_map_filter|].
      split; apply Forall_forall; intros l Hl; apply filter_In in Hl as [Hl _];
        [rewrite Forall_forall in Hok | rewrite Forall_forall in Hmax]; auto.
    + split; [|split].
      * rewrite map_map. erewrite map_ext; [exact Hnd|].
        intros l. simpl. destruct (has_code c l); reflexivity.
      * apply Forall_forall. intros l' Hl'.
        apply in_map_iff in Hl' as (l & <- & Hl).
        rewrite Forall_forall in Hok. specialize (Hok l Hl).
        destruct (has_code c l); exact Hok.
      * apply Forall_forall. intros l' Hl'.
        apply in_map_iff in Hl' as (l & <- & Hl).
        rewrite Forall_forall in Hmax, Hroom.
        specialize (Hmax l Hl). specialize (Hroom l Hl).
        destruct (has_code c l); simpl; auto.
Qed.

(** X13. In every table the program can produce, whatever the requests
    and however their statements interleave, no two rows carry the same
    code and every code passes the validator: it is 6 to 8 ASCII letters
    or digits. *)
Theorem reachable_codes (URL_protocol : string -> option string) :
  forall db,
    reachable URL_protocol db ->
    NoDup (map code (links db))
    /\ Forall (fun l => well_formed_code (code l)) (links db).
Proof.
  intros db H. destruct (reachable_schema _ _ H) as (Hnd & Hok & _).
  split; [exact Hnd|].
  eapply Forall_impl; [|exact Hok]. intros l. apply isValidCode_iff.
Qed.

Lemma reachable_db3 : reachable Sample.URL_protocol Sample.db3.
Proof.
  exact (reach_step Sample.URL_protocol (Sample.env 1800 "0.1")
           (Selected "xyz789" "http://example.net/a") _
        (reach_step Sample.URL_protocol (Sample.env 1700 "0.1")
           (Selected "xyz789" "http://example.net/a") _
        (reach_step Sample.URL_protocol (Sample.env 1600 "0.1")
           (Selected "xyz789" "http://example.net/a") _
        (reach_step Sample.URL_protocol (Sample.env 1500 "0.1")
           (Pending (CreateLink {| url := "http://example.net/a";
                                   custom_code := Some "xyz789";
                                   owner := "c@d.org" |})) _
        (reach_step Sample.URL_protocol (Sample.env 1000 "0.1")
           (Pending (CreateLink (Sample.body_with "abc123"))) _
           (reach_empty _)))))).
Qed.

Lemma reachable_codes_witness :
  NoDup (map code (links Sample.db3))
  /\ Forall (fun l => well_formed_code (code l)) (links Sample.db3).
Proof.
  apply (reachable_codes Sample.URL_protocol Sample.db3 reachable_db3).
Defined.

(** X14. In every table the program can produce, no two rows have the
    same [id], every [id] is below the next value of the sequence, and no
    counter exceeds the largest INTEGER. *)
Theorem reachable_keys_and_bounds (URL_protocol : string -> option string) :
  forall db,
    reachable URL_protocol db ->
    NoDup (map id (links db))
    /\ Forall (fun l => (id l < links_id_seq db)%Z) (links db)
    /\ Forall (fun l => (0 <= total_clicks l <= 2147483647)%Z) (links db).
Proof.
  intros db H.
  destruct (reachable_invariant _ _ H) as [[Hnd Hbelow] Hok].
  destruct (reachable_schema _ _ H) as (_ & _ & Hmax).
  split; [exact Hnd|]. split; [exact Hbelow|].
  rewrite Forall_forall in *. intros l Hl.
  destruct (Hok l Hl) as [Hpos _]. specialize (Hmax l Hl).
  unfold INTEGER_MAX in Hmax. lia.
Qed.

Lemma reachable_keys_and_bounds_witness :
  NoDup (map id (links Sample.db3))
  /\ Forall (fun l => (id l < links_id_seq Sample.db3)%Z) (links Sample.db3)
  /\ Forall (fun l => (0 <= total_clicks l <= 2147483647)%Z)
       (links Sample.db3).
Proof.
  apply (reachable_keys_and_bounds Sample.URL_protocol Sample.db3
           reachable_db3).
Defined.

(** X15. Whatever the requests and however their statements interleave,
    a row that is still in the table has the code, the URL, the e-mail
    address and the creation time it was created with: no statement of the
    program changes them. *)
Theorem row_columns_immutable (URL_protocol : string -> option string) :
  forall db sched runs runs' db',
    reachable URL_protocol db ->
    exec URL_protocol sched runs db = (runs', db') ->
    forall l l',
      In l (links db) -> In l' (links db') -> id l' = id l ->
      code l' = code l /\ target_url l' = target_url l
      /\ email l' = email l /\ created_at l' = created_at l.
Proof.
  intros db sched runs runs' db' Hreach He l l' Hl Hl' Hid.
  destruct (reachable_invariant _ _ Hreach) as [Hids _].
  pose proof (exec_extends URL_protocol sched runs db) as Hext.
  rewrite He in Hext. simpl in Hext.
  destruct (extends_same_id _ _ _ _ Hids Hext Hl Hl' Hid)
    as (_ & Hc & Hu & Hm & Ht & _).
  auto.
Qed.

Lemma row_columns_immutable_witness :
  code (click 4000 Sample.row3) = code Sample.row3
  /\ target_url (click 4000 Sample.row3) = target_url Sample.row3
  /\ email (click 4000 Sample.row3) = email Sample.row3
  /\ created_at (click 4000 Sample.row3) = created_at Sample.row3.
Proof.
  apply (row_columns_immutable Sample.URL_protocol Sample.db3
           [(0, Sample.env 3000 "0.1"); (1, Sample.env 3500 "0.2");
            (0, Sample.env 4000 "0.3")]%nat
           [Pending (Redirect "xyz789"); Pending (DeleteLink "abc123")]
           [Done (RedirectTo 302 "http://example.net/a");
            Done (SendEmpty 204)]
           {| links := [click 4000 Sample.row3]; links_id_seq := 3 |}
           reachable_db3 eq_refl Sample.row3 (click 4000 Sample.row3)).
  - right. left. reflexivity.
  - left. reflexivity.
  - reflexivity.
Defined.

(** X16. When the counter of the one row with the code is already the
    largest INTEGER, the UPDATE of a redirect is refused: the request is
    not answered with a redirect and the table is left as it was. *)
Theorem redirect_at_integer_max (URL_protocol : string -> option string) :
  forall e c db l,
    select_by_code c db = [l] ->
    total_clicks l = 2147483647%Z ->
    exists resp,
      handle URL_protocol e (Redirect c) db = (Done resp, db)
      /\ forall status location, resp <> RedirectTo status location.
Proof.
  intros e c db l Hsel Hmax.
  unfold handle. cbn [step]. unfold redirect_select.
  destruct (refused [c]) eqn:Er.
  { cbn [step]. eexists. split; [reflexivity | discriminate]. }
  rewrite Hsel. cbn [step]. unfold redirect_update. rewrite Er.
  unfold update_clicks.
  rewrite (existsb_single (has_code c)
             (fun x => (INTEGER_MAX <? total_clicks x + 1)%Z) _ l Hsel).
  rewrite Hmax. simpl.
  eexists. split; [reflexivity | discriminate].
Qed.

Lemma redirect_at_integer_max_witness :
  exists resp,
    handle Sample.URL_protocol (Sample.env 5000 "0.1") (Redirect "abc123")
      Sample.db_full
    = (Done resp, Sample.db_full)
    /\ forall status location, resp <> RedirectTo status location.
Proof.
  apply (redirect_at_integer_max Sample.URL_protocol (Sample.env 5000 "0.1")
           "abc123" Sample.db_full Sample.row_full eq_refl eq_refl).
Defined.

(** ** Lookups by code *)

Lemma select_by_code_unique c rows seq :
  NoDup (map code rows) ->
  existsb (has_code c) rows = true ->
  exists l,
    In l rows /\ code l = c
    /\ select_by_code c {| links := rows; links_id_seq := seq |} = [l].
Proof.
  unfold select_by_code. simpl.
  induction rows as [|r rows IH]; simpl; [discriminate|].
  intros Hnd Hex. inversion Hnd as [|? ? Hnotin Hrest]; subst.
  destruct (has_code c r) eqn:Er.
  - exists r. apply String.eqb_eq in Er. split; [auto|]. split; [exact Er|].
    assert (Hnone : filter (has_code c) rows = []).
    { destruct (filter (has_code c) rows) as [|x xs] eqn:Ef; [reflexivity|].
      exfalso. apply Hnotin.
      assert (Hx : In x (filter (has_code c) rows))
        by (rewrite Ef; left; reflexivity).
      apply filter_In in Hx as [Hx Hc]. apply String.eqb_eq in Hc.
      rewrite Er, <- Hc. now apply in_map. }
    now rewrite Hnone.
  - simpl in Hex. destruct (IH Hrest Hex) as (l & Hl & Hc & Hsel).
    exists l. auto.
Qed.

(** X17. The details of a code with no NUL character: when no row
    carries it the answer is 404 "not found"; when a row carries it the
    answer is 200 with a record of the table whose code is the one asked
    for.  For a code that holds a NUL character the store refuses the
    parameter and the answer is 500 "internal error".  The table is not
    changed. *)
Theorem link_details_lookup (URL_protocol : string -> option string) :
  forall e c db,
    (has_nul c = false -> code_taken c db = false ->
     handle URL_protocol e (LinkDetails c) db
     = (Done (SendJson 404 (error_body "not found")), db))
    /\ (has_nul c = false -> code_taken c db = true ->
        exists row,
          In row (links db) /\ code row = c
          /\ handle URL_protocol e (LinkDetails c) db
             = (Done (SendJson 200 (row_json row)), db))
    /\ (has_nul c = true ->
        handle URL_protocol e (LinkDetails c) db
        = (Done (SendJson 500 (error_body "internal error")), db)).
Proof.
  intros e c db. unfold handle. simpl. unfold link_details.
  rewrite refused_one. split; [|split].
  - intros -> H. now rewrite (select_by_code_free _ _ H).
  - intros -> H. unfold code_taken in H.
    destruct (select_by_code c db) as [|row rows] eqn:Es.
    + exfalso. apply existsb_exists in H as (l & Hl & Hc).
      assert (Hin : In l (select_by_code c db))
        by (apply filter_In; auto).
      rewrite Es in Hin. exact Hin.
    + exists row.
      assert (Hin : In row (select_by_code c db))
        by (rewrite Es; left; reflexivity).
      apply filter_In in Hin as [Hin Hc]. apply String.eqb_eq in Hc. auto.
  - intros ->. reflexivity.
Qed.

Lemma link_details_lookup_witness :
  (exists row,
      In row (links Sample.db3) /\ code row = "xyz789"
      /\ handle Sample.URL_protocol (Sample.env 5000 "0.1")
           (LinkDetails "xyz789") Sample.db3
         = (Done (SendJson 200 (row_json row)), Sample.db3))
  /\ handle Sample.URL_protocol (Sample.env 5000 "0.1")
       (LinkDetails (String zero "")) Sample.db3
     = (Done (SendJson 500 (error_body "internal error")), Sample.db3).
Proof.
  split.
  - apply (proj1 (proj2 (link_details_lookup Sample.URL_protocol
                           (Sample.env 5000 "0.1") "xyz789" Sample.db3)));
      reflexivity.
  - apply (proj2 (proj2 (link_details_lookup Sample.URL_protocol
                           (Sample.env 5000 "0.1") (String zero "")
                           Sample.db3))).
    reflexivity.
Defined.

(** X18. In a table the program can produce, a redirect of a code that a
    row carries, served on its own while the counter is below the largest
    INTEGER, is answered 302 to the URL stored in that row, and afterwards
    that row is the only one with the code, its counter one larger and
    [last_clicked] the time of the redirect. *)
Theorem resolve_existing_code (URL_protocol : string -> option string) :
  forall e c db,
    reachable URL_protocol db ->
    code_taken c db = true ->
    exists l,
      In l (links db) /\ code l = c
      /\ ((total_clicks l < 2147483647)%Z ->
          exists db',
            handle URL_protocol e (Redirect c) db
            = (Done (RedirectTo 302 (target_url l)), db')
            /\ select_by_code c db'
               = [ {| id := id l; code := c; target_url := target_url l;
                      email := email l;
                      total_clicks := (total_clicks l + 1)%Z;
                      last_clicked := Some (now e);
                      created_at := created_at l |} ]).
Proof.
  intros e c db Hreach Ht.
  destruct (reachable_schema _ _ Hreach) as (Hnd & Hok & _).
  destruct (select_by_code_unique c (links db) (links_id_seq db) Hnd Ht)
    as (l & Hl & Hc & Hsel).
  assert (Edb : {| links := links db; links_id_seq := links_id_seq db |} = db)
    by (destruct db; reflexivity).
  rewrite Edb in Hsel.
  assert (Hnul : has_nul c = false).
  { rewrite Forall_forall in Hok. specialize (Hok l Hl). rewrite Hc in Hok.
    now apply has_nul_valid. }
  exists l. split; [exact Hl|]. split; [exact Hc|].
  intros Hroom.
  assert (Hroom' : (total_clicks l + 1 <= INTEGER_MAX)%Z)
    by (unfold INTEGER_MAX; lia).
  destruct (handle_redirect_single URL_protocol e c db l Hnul Hsel Hroom')
    as [Hred Hsel'].
  eexists. split; [exact Hred|]. rewrite Hsel'. unfold click.
  now rewrite Hc.
Qed.

Lemma resolve_existing_code_witness :
  exists l,
    In l (links Sample.db3) /\ code l = "xyz789"
    /\ ((total_clicks l < 2147483647)%Z ->
        exists db',
          handle Sample.URL_protocol (Sample.env 5000 "0.1")
            (Redirect "xyz789") Sample.db3
          = (Done (RedirectTo 302 (target_url l)), db')
          /\ select_by_code "xyz789" db'
             = [ {| id := id l; code := "xyz789";
                    target_url := target_url l; email := email l;
                    total_clicks := (total_clicks l + 1)%Z;
                    last_clicked := Some (now (Sample.env 5000 "0.1"));
                    created_at := created_at l |} ]).
Proof.
  apply (resolve_existing_code Sample.URL_protocol (Sample.env 5000 "0.1")
           "xyz789" Sample.db3 reachable_db3).
  reflexivity.
Defined.


